(** * GoAPISimulator: stop resolution and trip assembly (go_api_simu.py)

    A shallow embedding of [go_api_simu.py].  Data frames are lists of row
    records in physical row order with the default positional index; a
    missing CSV cell (pandas NaN) is [None]; Python floats are modelled by
    real numbers; an exception is an [outcome] that is not [Return]. *)

From Stdlib Require Import List String ZArith Reals Lia Lra Psatz Bool.
From Stdlib Require Import Permutation Sorted.
Import ListNotations.

Local Open Scope string_scope.
Local Open Scope Z_scope.

(** ** Exceptions *)

Inductive exn : Type :=
| ValueError (msg : string)
| IndexError
| FileNotFoundError (file : string).

Inductive outcome (A : Type) : Type :=
| Return (v : A)
| Raise (e : exn).

Arguments Return {A} v.
Arguments Raise {A} e.

Definition bind {A B : Type} (c : outcome A) (k : A -> outcome B) : outcome B :=
  match c with
  | Return v => k v
  | Raise e => Raise e
  end.

Notation "x <- c ;; k" := (bind c (fun x => k))
  (at level 61, c at next level, right associativity).

(** [try: body except IndexError: handler] *)
Definition except_IndexError {A : Type} (body handler : outcome A) : outcome A :=
  match body with
  | Raise IndexError => handler
  | o => o
  end.

(** [series.apply(f)]: the rows are visited in order and the first exception
    propagates. *)
Fixpoint apply {A B : Type} (f : A -> outcome B) (l : list A) : outcome (list B) :=
  match l with
  | [] => Return []
  | x :: t => y <- f x ;; ys <- apply f t ;; Return (y :: ys)
  end.

(** ** Utils *)

Module Utils.
Local Open Scope R_scope.

(** [math.radians] *)
Definition radians (x : R) : R := x * (PI / 180).

(** [math.sqrt]: a negative argument is a domain error. *)
Definition math_sqrt (x : R) : outcome R :=
  if Rlt_dec x 0 then Raise (ValueError "math domain error") else Return (sqrt x).

(** [math.atan2 y x], the angle of the point (x, y) in (-PI, PI]. *)
Definition atan2 (y x : R) : R :=
  if Rlt_dec 0 x then atan (y / x)
  else if Rlt_dec x 0 then
    if Rlt_dec y 0 then atan (y / x) - PI else atan (y / x) + PI
  else if Rlt_dec 0 y then PI / 2
  else if Rlt_dec y 0 then - (PI / 2)
  else 0.

(** The haversine term [a] of [calculate_distance]. *)
Definition haversine_a (lat1 lon1 lat2 lon2 : R) : R :=
  let dlat := radians (lat2 - lat1) in
  let dlon := radians (lon2 - lon1) in
  sin (dlat / 2) ^ 2 + cos (radians lat1) * cos (radians lat2) * sin (dlon / 2) ^ 2.

Definition calculate_distance (lat1 lon1 lat2 lon2 : R) : outcome R :=
  let r := 6371 in
  let a := haversine_a lat1 lon1 lat2 lon2 in
  sa <- math_sqrt a ;;
  sb <- math_sqrt (1 - a) ;;
  Return (r * 2 * atan2 sa sb).

(** [numpy.dot] on two rows of equal length. *)
Fixpoint dot (u v : list R) : R :=
  match u, v with
  | x :: u', y :: v' => x * y + dot u' v'
  | _, _ => 0
  end.

(** [sklearn.preprocessing.normalize] on one row: the Euclidean norm, where
    a norm below ten times the machine epsilon of binary64, a zero norm
    among them, is replaced by 1 before the division. *)
Definition row_norm (u : list R) : R := sqrt (dot u u).

Definition eps : R := / 2 ^ 52.

Definition handle_zeros_in_scale (n : R) : R :=
  if Rlt_dec n (10 * eps) then 1 else n.

Definition normalize (u : list R) : list R :=
  let n := handle_zeros_in_scale (row_norm u) in
  map (fun x => x / n) u.

(** [sklearn.metrics.pairwise.cosine_similarity] on two 1 x n matrices:
    the input check rejects a row without features and rows of different
    widths; the result is the dot product of the normalized rows. *)
Definition cosine_similarity (x y : list R) : outcome R :=
  if (List.length x =? 0)%nat then
    Raise (ValueError "Found array with 0 feature(s)")
  else if (List.length y =? 0)%nat then
    Raise (ValueError "Found array with 0 feature(s)")
  else if negb (List.length x =? List.length y)%nat then
    Raise (ValueError "Incompatible dimension for X and Y matrices")
  else Return (dot (normalize x) (normalize y)).

Definition calculate_cosine_similarity (vec1 vec2 : list R) : outcome R :=
  let v1 := vec1 in
  let v2 := vec2 in
  cosine_similarity v1 v2.

End Utils.

(** ** The pandas operations the simulator uses *)

Module Pandas.

(** [Series.idxmin] / [Series.idxmax] on a float series with the positional
    index: the position of the first minimal (maximal) value. *)
Fixpoint argmin_from (best_i : nat) (best : R) (i : nat) (l : list R) : nat :=
  match l with
  | [] => best_i
  | x :: t =>
      if Rlt_dec x best then argmin_from i x (S i) t
      else argmin_from best_i best (S i) t
  end.

Fixpoint argmax_from (best_i : nat) (best : R) (i : nat) (l : list R) : nat :=
  match l with
  | [] => best_i
  | x :: t =>
      if Rlt_dec best x then argmax_from i x (S i) t
      else argmax_from best_i best (S i) t
  end.

Definition idxmin (s : list R) : outcome nat :=
  match s with
  | [] => Raise (ValueError "attempt to get argmin of an empty sequence")
  | x :: t => Return (argmin_from 0 x 1 t)
  end.

Definition idxmax (s : list R) : outcome nat :=
  match s with
  | [] => Raise (ValueError "attempt to get argmax of an empty sequence")
  | x :: t => Return (argmax_from 0 x 1 t)
  end.

(** [df.iloc[i]] and [values[0]]: positional access, [IndexError] out of
    range. *)
Definition iloc {A : Type} (df : list A) (i : nat) : outcome A :=
  match nth_error df i with
  | Some row => Return row
  | None => Raise IndexError
  end.

(** [df.iloc[-1]] *)
Definition iloc_last {A : Type} (df : list A) : outcome A :=
  iloc df (List.length df - 1).

(** [left.merge(right, on=key)]: inner join, in the order of the left rows;
    the matches of one left row come in the order of the right rows. *)
Definition merge {A B K : Type} (eqb : K -> K -> bool)
    (kl : A -> K) (kr : B -> K) (left : list A) (right : list B) : list (A * B) :=
  flat_map (fun l => map (fun r => (l, r)) (filter (fun r => eqb (kl l) (kr r)) right)) left.

(** [pd.merge(left, right, on=key, how='left')]: every left row is kept, once
    per matching right row, and once with no partner when none matches. *)
Definition merge_left {A B K : Type} (eqb : K -> K -> bool)
    (kl : A -> K) (kr : B -> K) (left : list A) (right : list B)
    : list (A * option B) :=
  flat_map (fun l =>
    match filter (fun r => eqb (kl l) (kr r)) right with
    | [] => [(l, None)]
    | ms => map (fun r => (l, Some r)) ms
    end) left.

(** [GroupBy.first] on one column of one group: the first entry that is not
    null. *)
Fixpoint first_valid {A : Type} (col : list (option A)) : option A :=
  match col with
  | [] => None
  | Some v :: _ => Some v
  | None :: t => first_valid t
  end.

(** The group keys of [groupby], ascending and without repetition. *)
Fixpoint insert_key (k : Z) (ks : list Z) : list Z :=
  match ks with
  | [] => [k]
  | h :: t =>
      if k <? h then k :: ks
      else if k =? h then ks
      else h :: insert_key k t
  end.

Definition group_keys (ks : list Z) : list Z :=
  fold_right insert_key [] ks.

(** [Series.min] on an integer column; null on an empty one. *)
Definition series_min (s : list Z) : option Z :=
  match s with
  | [] => None
  | h :: t => Some (fold_left Z.min t h)
  end.

(** [Series.unique]: first occurrences, in order. *)
Fixpoint unique (l : list string) : list string :=
  match l with
  | [] => []
  | x :: t => x :: filter (fun y => negb (String.eqb y x)) (unique t)
  end.

(** [Series.isin] *)
Definition isin_str (x : string) (l : list string) : bool :=
  existsb (String.eqb x) l.

Definition isin_Z (x : Z) (l : list Z) : bool :=
  existsb (Z.eqb x) l.

(** [Series.str.endswith] *)
Definition endswith (s suffix : string) : bool :=
  (String.length suffix <=? String.length s)%nat &&
  String.eqb (substring (String.length s - String.length suffix)
                        (String.length suffix) s) suffix.


(** [df.sort_values(by=key)]: ascending in the key. *)
Fixpoint insert_sorted {A : Type} (leb : A -> A -> bool) (x : A) (l : list A) : list A :=
  match l with
  | [] => [x]
  | h :: t => if leb x h then x :: l else h :: insert_sorted leb x t
  end.

Definition sort_values {A : Type} (leb : A -> A -> bool) (df : list A) : list A :=
  fold_right (insert_sorted leb) [] df.

(** [pd.read_csv]: the rows of the file, or [FileNotFoundError]. *)
Definition read_csv {A : Type} (file : string) (content : option (list A))
    : outcome (list A) :=
  match content with
  | Some rows => Return rows
  | None => Raise (FileNotFoundError file)
  end.

End Pandas.

(** ** Data model: one record per table row *)

Module Stop.
Record t : Type := mk {
  stop_id : string;
  stop_name : option string;
  stop_lat : R;
  stop_lon : R;
  embedding : list R
}.
End Stop.

(** A row of stop_times.txt.  Every row is taken to carry its sequence
    number: a null [stop_sequence] cell is not modelled. *)
Module StopTime.
Record t : Type := mk {
  trip_id : string;
  stop_id : string;
  stop_sequence : Z;
  arrival_time : option string;
  departure_time : option string;
  stop_headsign : option string
}.
End StopTime.

Module CalendarDate.
Record t : Type := mk { service_id : Z }.
End CalendarDate.

Module Trip.
Record t : Type := mk {
  trip_id : string;
  service_id : Z;
  route_id : string
}.
End Trip.

(** [datetime.date] and the pandas timestamp of [OperationDateTime]. *)
Record date : Type := mkdate { year : Z; month : Z; day : Z }.

Record Timestamp : Type := mkts { dt_date : date; dt_seconds : Z }.

Definition date_leb (a b : date) : bool :=
  (year a <? year b) ||
  ((year a =? year b) &&
   ((month a <? month b) || ((month a =? month b) && (day a <=? day b)))).

Definition date_eqb (a b : date) : bool :=
  (year a =? year b) && (month a =? month b) && (day a =? day b).

Definition Timestamp_leb (a b : Timestamp) : bool :=
  (date_leb (dt_date a) (dt_date b) && negb (date_eqb (dt_date a) (dt_date b))) ||
  (date_eqb (dt_date a) (dt_date b) && (dt_seconds a <=? dt_seconds b)).

(** The delay-log tables.  [merge_data] and the filter of [__init__] fix
    where the columns are: [TripId] in L101 and L102, [OperationDateTime] in
    L101, [DelayCode] in the L101/L102 frame and in DelayCodeInfo. *)
Module L101.
Record t : Type := mk {
  TripId : string;
  OperationDateTime : Timestamp;
  CorridorId : string
}.
End L101.

Module L102.
Record t : Type := mk {
  TripId : string;
  DelayCode : option string
}.
End L102.

Module DelayCodeInfo.
Record t : Type := mk {
  DelayCode : option string;
  Description : option string
}.
End DelayCodeInfo.

(** A row of the merged delay-log frame. *)
Module DelayLog.
Record t : Type := mk {
  TripId : string;
  OperationDateTime : Timestamp;
  CorridorId : string;
  DelayCode : option string;
  Description : option string
}.
End DelayLog.

Definition option_eqb {A : Type} (eqb : A -> A -> bool) (a b : option A) : bool :=
  match a, b with
  | Some x, Some y => eqb x y
  | None, None => true
  | _, _ => false
  end.

Definition l102_DelayCode (r : L101.t * option L102.t) : option string :=
  match snd r with
  | Some x => L102.DelayCode x
  | None => None
  end.

Definition merge_data (l101_df : list L101.t) (l102_df : list L102.t)
    (delay_code_info_df : list DelayCodeInfo.t) : list DelayLog.t :=
  let merged := Pandas.merge_left String.eqb L101.TripId L102.TripId l101_df l102_df in
  let merged := Pandas.merge_left (option_eqb String.eqb) l102_DelayCode
                  DelayCodeInfo.DelayCode merged delay_code_info_df in
  map (fun r =>
         DelayLog.mk (L101.TripId (fst (fst r)))
                     (L101.OperationDateTime (fst (fst r)))
                     (L101.CorridorId (fst (fst r)))
                     (l102_DelayCode (fst r))
                     (match snd r with
                      | Some i => DelayCodeInfo.Description i
                      | None => None
                      end))
      merged.

(** ** The files and the embedding model the simulator loads *)

Record GtfsFiles : Type := mkgtfs {
  calendar_dates_txt : option (list CalendarDate.t);
  trips_txt : option (list Trip.t);
  stop_times_txt : option (list StopTime.t);
  stops_csv : option (list Stop.t)
}.

Record DelayFiles : Type := mkdelay {
  L101_csv : option (list L101.t);
  L102_csv : option (list L102.t);
  DelayCodeInfo_csv : option (list DelayCodeInfo.t)
}.

Record Env : Type := mkenv {
  gtfs_dir : string -> GtfsFiles;
  delay_dir : string -> DelayFiles;
  SentenceTransformer : string -> string -> list R
}.

Definition read_from_file (env : Env) (folder_path : string)
    : outcome (list L101.t * list L102.t * list DelayCodeInfo.t) :=
  l101_df <- Pandas.read_csv "L101.csv" (L101_csv (delay_dir env folder_path)) ;;
  l102_df <- Pandas.read_csv "L102.csv" (L102_csv (delay_dir env folder_path)) ;;
  delay_code_info_df <-
    Pandas.read_csv "DelayCodeInfo.csv" (DelayCodeInfo_csv (delay_dir env folder_path)) ;;
  Return (l101_df, l102_df, delay_code_info_df).

(** ** GoAPISimulator *)

Module TripInfo.
Record stop_entry : Type := mk_entry {
  entry_stop_sequence : Z;
  entry_stop_name : option string;
  entry_arrival_time : option string;
  entry_departure_time : option string
}.

Record t : Type := mk {
  trip_id : string;
  stop_headsign : option string;
  origin : option string;
  destination : option string;
  departure_time : option string;
  arrival_time : option string;
  stop_sequence : list stop_entry
}.
End TripInfo.

Module NextTrip.
Record t : Type := mk {
  trip_id : string;
  origin : string;
  destination : string;
  departure_time : string;
  arrival_time : string
}.
End NextTrip.

Record GoAPISimulator : Type := mksim {
  stops : list Stop.t;
  embedding_model : string -> list R;
  stop_time_clean : list StopTime.t;
  delay_logs_clean_df : list DelayLog.t
}.

(** The row filter of the delay logs in [__init__]. *)
Definition delay_log_filter (corridor : string) (r : DelayLog.t) : bool :=
  date_leb (mkdate 2018 3 1) (dt_date (DelayLog.OperationDateTime r)) &&
  date_leb (dt_date (DelayLog.OperationDateTime r)) (mkdate 2018 3 8) &&
  String.eqb (DelayLog.CorridorId r) corridor &&
  match DelayLog.DelayCode r with Some _ => true | None => false end.

(** The trips that pass the service-date and corridor filter. *)
Definition valid_trips (calendar_dates : list CalendarDate.t) (trips : list Trip.t)
    (start_date end_date : Z) (corridor : string) : list Trip.t :=
  let service_ids :=
    map CalendarDate.service_id
      (filter (fun c => (start_date <=? CalendarDate.service_id c) &&
                        (CalendarDate.service_id c <=? end_date))
              calendar_dates) in
  filter (fun t => Pandas.isin_Z (Trip.service_id t) service_ids &&
                   Pandas.endswith (Trip.route_id t) corridor)
         trips.

(** The rows of stops.csv carry their embedding as a list of numbers: the
    [ast.literal_eval] of the embedding column and the loading of the
    embedding model are taken to succeed, and a read fails on a missing file
    only. *)
Definition __init__ (env : Env) (data_dir : string) (start_date end_date : Z)
    (corridor : string) : outcome GoAPISimulator :=
  calendar_dates <-
    Pandas.read_csv "calendar_dates.txt" (calendar_dates_txt (gtfs_dir env data_dir)) ;;
  trips <- Pandas.read_csv "trips.txt" (trips_txt (gtfs_dir env data_dir)) ;;
  stop_times <- Pandas.read_csv "stop_times.txt" (stop_times_txt (gtfs_dir env data_dir)) ;;
  self_stops <- Pandas.read_csv "stops.csv" (stops_csv (gtfs_dir env data_dir)) ;;
  let self_embedding_model :=
    SentenceTransformer env "sentence-transformers/all-roberta-large-v1" in
  let valid := valid_trips calendar_dates trips start_date end_date corridor in
  let self_stop_time_clean :=
    filter (fun r => Pandas.isin_str (StopTime.trip_id r)
                                     (Pandas.unique (map Trip.trip_id valid)))
           stop_times in
  tables <- read_from_file env "Data/L101 and L102 - 2018" ;;
  let delay_logs := merge_data (fst (fst tables)) (snd (fst tables)) (snd tables) in
  let self_delay_logs_clean_df :=
    Pandas.sort_values
      (fun a b => Timestamp_leb (DelayLog.OperationDateTime a) (DelayLog.OperationDateTime b))
      (filter (delay_log_filter corridor) delay_logs) in
  Return (mksim self_stops self_embedding_model self_stop_time_clean
                self_delay_logs_clean_df).

(** The joined frame [trip_data] of [get_trip_info]. *)
Definition trip_data_of (self : GoAPISimulator) (full_trip_id : string)
    : list (StopTime.t * Stop.t) :=
  Pandas.merge String.eqb StopTime.stop_id Stop.stop_id
    (filter (fun r => String.eqb (StopTime.trip_id r) full_trip_id) (stop_time_clean self))
    (stops self).

Definition row_stop_sequence (r : StopTime.t * Stop.t) : Z :=
  StopTime.stop_sequence (fst r).

(** [trip_data.groupby('stop_sequence').first()], as the entries built from
    it: one per group key, every column reduced on its own. *)
Definition grouped_entries (trip_data : list (StopTime.t * Stop.t))
    : list TripInfo.stop_entry :=
  map (fun seq =>
         let group := filter (fun r => row_stop_sequence r =? seq) trip_data in
         TripInfo.mk_entry seq
           (Pandas.first_valid (map (fun r => Stop.stop_name (snd r)) group))
           (Pandas.first_valid (map (fun r => StopTime.arrival_time (fst r)) group))
           (Pandas.first_valid (map (fun r => StopTime.departure_time (fst r)) group)))
      (Pandas.group_keys (map row_stop_sequence trip_data)).

Definition get_trip_info (self : GoAPISimulator) (trip_id date corridor : string)
    : outcome TripInfo.t :=
  let full_trip_id := date ++ "-" ++ corridor ++ "-" ++ trip_id in
  let trip_data := trip_data_of self full_trip_id in
  match trip_data with
  | [] => Raise (ValueError ("Trip ID " ++ full_trip_id ++ " not found."))
  | _ :: _ =>
      headsign <-
        except_IndexError
          (Pandas.iloc
             (map (fun r => StopTime.stop_headsign (fst r))
                  (filter (fun r =>
                             match Pandas.series_min (map row_stop_sequence trip_data) with
                             | Some m => row_stop_sequence r =? m
                             | None => false
                             end)
                          trip_data))
             0)
          (Raise (ValueError ("Missing stop_headsign for trip " ++ trip_id ++ "."))) ;;
      let stop_sequence := grouped_entries trip_data in
      first_row <- Pandas.iloc trip_data 0 ;;
      last_row <- Pandas.iloc_last trip_data ;;
      Return (TripInfo.mk full_trip_id headsign
                (Stop.stop_name (snd first_row))
                (Stop.stop_name (snd last_row))
                (StopTime.departure_time (fst first_row))
                (StopTime.arrival_time (fst last_row))
                stop_sequence)
  end.

(** [self.stops.stop_name == stop_name] on one cell: a null on either side
    compares unequal. *)
Definition name_matches (cell query : option string) : bool :=
  match cell, query with
  | Some a, Some b => String.eqb a b
  | _, _ => false
  end.

(** The text of [method] in the f-string of the handler. *)
Definition format_method (method : option string) : string :=
  match method with
  | Some m => m
  | None => "None"
  end.

(** [get_stop_id] returns a Python value: a stop id, or [None] when no
    branch of the method dispatch is taken. *)
Definition get_stop_id (self : GoAPISimulator) (stop_name : option string)
    (lat long : option R) (method : option string) : outcome (option string) :=
  except_IndexError
    (match method with
     | None =>
         sid <- Pandas.iloc
                  (map Stop.stop_id
                       (filter (fun s => name_matches (Stop.stop_name s) stop_name)
                               (stops self)))
                  0 ;;
         Return (Some sid)
     | Some m =>
         if String.eqb m "embedding_search" then
           match stop_name with
           | None => Raise (ValueError "stop_name is required for embedding search")
           | Some name =>
               let input_emb := embedding_model self name in
               sim_scores <-
                 apply (fun x => Utils.calculate_cosine_similarity input_emb x)
                       (map Stop.embedding (stops self)) ;;
               i <- Pandas.idxmax sim_scores ;;
               row <- Pandas.iloc (stops self) i ;;
               Return (Some (Stop.stop_id row))
           end
         else if String.eqb m "geo_search" then
           match lat, long with
           | Some lat, Some long =>
               dist_scores <-
                 apply (fun row => Utils.calculate_distance lat long
                                     (Stop.stop_lat row) (Stop.stop_lon row))
                       (stops self) ;;
               i <- Pandas.idxmin dist_scores ;;
               row <- Pandas.iloc (stops self) i ;;
               Return (Some (Stop.stop_id row))
           | _, _ => Raise (ValueError "Both lat and long are required for geo search")
           end
         else Return None
     end)
    (Raise (ValueError ("Stop not found using method: " ++ format_method method))).

Definition get_next_available_trip (self : GoAPISimulator)
    (o_stop_id d_stop_id : string) (time : option string) : NextTrip.t :=
  NextTrip.mk "907" "Oshawa GO" "Union Station" "07:42:00" "08:45:00".

(** ** Notions the properties are stated with *)




(** The entry that represents one row of [trip_data]. *)
Definition entry_of_row (r : StopTime.t * Stop.t) : TripInfo.stop_entry :=
  TripInfo.mk_entry (row_stop_sequence r) (Stop.stop_name (snd r))
    (StopTime.arrival_time (fst r)) (StopTime.departure_time (fst r)).

(** A row with a stop name, an arrival time and a departure time. *)
Definition complete_row (r : StopTime.t * Stop.t) : Prop :=
  Stop.stop_name (snd r) <> None /\
  StopTime.arrival_time (fst r) <> None /\
  StopTime.departure_time (fst r) <> None.

(** The composite trip key. *)
Definition full_trip_id (trip_id date corridor : string) : string :=
  date ++ "-" ++ corridor ++ "-" ++ trip_id.

(** A [datetime.date] in the integer form of [start_date] and [end_date]. *)
Definition date_as_int (d : date) : Z := year d * 10000 + month d * 100 + day d.

(** ** Fixtures *)

Module Fixture.
Local Open Scope R_scope.

Definition union_station : Stop.t :=
  Stop.mk "UN" (Some "Union Station") 43.6453 (-79.3806) [1; 0].

Definition oakville_go : Stop.t :=
  Stop.mk "OA" (Some "Oakville GO") 43.4467 (-79.6653) [0; 1].

Definition oshawa_go : Stop.t :=
  Stop.mk "OS" (Some "Oshawa GO") 43.8708 (-78.8847) [1; 1].

Definition stop_table : list Stop.t := [oshawa_go; union_station; oakville_go].

(** An embedding model that sends every text to one fixed vector. *)
Definition constant_model (name : string) : list R := [1; 0].

Definition store (stop_times : list StopTime.t) : GoAPISimulator :=
  mksim stop_table constant_model stop_times [].

(** Trip 907 with its two rows stored last stop first. *)
Definition unsorted_trip : list StopTime.t :=
  [ StopTime.mk "20180301-LE-907" "UN" 2 (Some "08:45:00") (Some "08:45:00")
      (Some "Union Station");
    StopTime.mk "20180301-LE-907" "OS" 1 (Some "07:42:00") (Some "07:42:00")
      (Some "Union Station") ].

(** Trip 907 whose first stop has no headsign. *)
Definition trip_without_headsign : list StopTime.t :=
  [ StopTime.mk "20180301-LE-907" "OS" 1 (Some "07:42:00") (Some "07:42:00") None;
    StopTime.mk "20180301-LE-907" "UN" 2 (Some "08:45:00") (Some "08:45:00")
      (Some "Union Station") ].

(** Trip 907 with the row of its first stop stored twice, each copy with one
    time missing. *)
Definition trip_with_duplicate_rows : list StopTime.t :=
  [ StopTime.mk "20180301-LE-907" "OS" 1 None (Some "07:42:00") (Some "Union Station");
    StopTime.mk "20180301-LE-907" "OS" 1 (Some "07:40:00") None (Some "Union Station");
    StopTime.mk "20180301-LE-907" "UN" 2 (Some "08:45:00") (Some "08:45:00")
      (Some "Union Station") ].

(** A data directory whose trips all run on another corridor, and one delay
    record of 5 March 2018. *)
Definition gtfs_files : GtfsFiles :=
  mkgtfs (Some [CalendarDate.mk 20180301])
         (Some [Trip.mk "20180301-LW-100" 20180301 "01180-LW"])
         (Some [StopTime.mk "20180301-LW-100" "UN" 1 (Some "06:00:00") (Some "06:00:00")
                  (Some "Kitchener GO")])
         (Some stop_table).

Definition delay_files : DelayFiles :=
  mkdelay (Some [L101.mk "907" (mkts (mkdate 2018 3 5) 27720) "LE"])
          (Some [L102.mk "907" (Some "MECH")])
          (Some [DelayCodeInfo.mk (Some "MECH") (Some "Mechanical failure")]).

Definition env : Env :=
  mkenv (fun _ => gtfs_files) (fun _ => delay_files) (fun _ => constant_model).

End Fixture.

(** ** Further operations of the simulator and of its tools *)

From Stdlib Require Import Ascii.

(** [self.delay_logs_clean_df.sample(1).to_dict(orient='records')[0]]: one
    row of the snapshot, at the position the random generator draws; [draw]
    is the generator's output, reduced to a position of the frame.  Sampling
    from an empty frame is a [ValueError]. *)
Definition get_control_log (self : GoAPISimulator) (draw : nat) : outcome DelayLog.t :=
  match delay_logs_clean_df self with
  | [] => Raise (ValueError "a must be greater than 0 unless no samples are taken")
  | _ :: _ =>
      Pandas.iloc (delay_logs_clean_df self)
                  (draw mod List.length (delay_logs_clean_df self))
  end.

(** What the pattern [<.*?>] of [clean_html] consumes after a ['<']: the
    shortest run up to a ['>'], which no newline may precede ([.] matches
    every character but the newline).  [after_close s] is the text behind
    that ['>'], if there is one. *)
Fixpoint after_close (s : string) : option string :=
  match s with
  | EmptyString => None
  | String c t =>
      if Ascii.eqb c ">"%char then Some t
      else if Ascii.eqb c (Ascii.ascii_of_nat 10) then None
      else after_close t
  end.

(** [re.sub(re.compile('<.*?>'), '', raw_html)]: scanning from the left,
    every ['<'] that the pattern can close is dropped with all text up to
    and including the closing ['>'], and the scan goes on behind it;
    [skip_tag] is the scan inside such a tag. *)
Fixpoint clean_html (raw_html : string) : string :=
  match raw_html with
  | EmptyString => EmptyString
  | String c t =>
      if Ascii.eqb c "<"%char then
        match after_close t with
        | Some _ => skip_tag t
        | None => String c (clean_html t)
        end
      else String c (clean_html t)
  end
with skip_tag (s : string) : string :=
  match s with
  | EmptyString => EmptyString
  | String c t => if Ascii.eqb c ">"%char then clean_html t else skip_tag t
  end.

(** A text in which the pattern of [clean_html] has no match. *)
Fixpoint tag_free (s : string) : Prop :=
  match s with
  | EmptyString => True
  | String c t => (c = "<"%char -> after_close t = None) /\ tag_free t
  end.

(** [s] ends with [suffix]. *)
Definition has_suffix (s suffix : string) : Prop := exists p, s = (p ++ suffix)%string.

(** The character [c] occurs in [s]. *)
Fixpoint contains (c : ascii) (s : string) : Prop :=
  match s with
  | EmptyString => False
  | String d t => d = c \/ contains c t
  end.


(** ** The geo search in binary64 arithmetic

    The model above computes with real numbers.  Python's floats are
    binary64 numbers, and rounding decides whether the square roots of
    [calculate_distance] are defined, so the geo branch of [get_stop_id] is
    stated once more over binary64: sums, products, quotients and the square
    root are those of IEEE 754; [math.sin], [math.cos], [math.atan2] and the
    float power are the C library's and are taken as given. *)

From Stdlib Require PrimFloat.

Module Float64.
Import PrimFloat.
Local Open Scope float_scope.

(** [math.sin], [math.cos], [math.atan2] and [x ** y] on floats, as Python
    calls them: a float, or an exception. *)
Record math : Type := mkmath {
  sin : float -> outcome float;
  cos : float -> outcome float;
  atan2 : float -> float -> outcome float;
  pow : float -> float -> outcome float
}.

(** [math.pi] *)
Definition pi : float := 0x1.921fb54442d18p+1.

(** [math.radians]: the product with the constant pi / 180. *)
Definition radians (x : float) : float := x * (pi / 180).

(** [math.sqrt]: a negative argument is a domain error, a NaN is passed
    on. *)
Definition math_sqrt (x : float) : outcome float :=
  if x <? 0 then Raise (ValueError "math domain error") else Return (sqrt x).

(** [calculate_distance], the operands evaluated from left to right. *)
Definition calculate_distance (m : math) (lat1 lon1 lat2 lon2 : float) : outcome float :=
  let r := 6371 in
  let dlat := radians (lat2 - lat1) in
  let dlon := radians (lon2 - lon1) in
  s1 <- sin m (dlat / 2) ;;
  p1 <- pow m s1 2 ;;
  c1 <- cos m (radians lat1) ;;
  c2 <- cos m (radians lat2) ;;
  s2 <- sin m (dlon / 2) ;;
  p2 <- pow m s2 2 ;;
  let a := p1 + c1 * c2 * p2 in
  sa <- math_sqrt a ;;
  sb <- math_sqrt (1 - a) ;;
  t <- atan2 m sa sb ;;
  Return (r * 2 * t).

(** The columns of the stop table that the geo search reads. *)
Record Stop : Type := mkstop {
  stop_id : string;
  stop_lat : float;
  stop_lon : float
}.

(** The branch 'geo_search' of [get_stop_id] with both coordinates given,
    inside the [try] of the function; [idxmin] is the arg-min of pandas on a
    float column. *)
Definition geo_search (m : math) (idxmin : list float -> outcome nat)
    (stops : list Stop) (lat long : float) : outcome (option string) :=
  except_IndexError
    (dist_scores <-
       apply (fun row => calculate_distance m lat long (stop_lat row) (stop_lon row))
             stops ;;
     i <- idxmin dist_scores ;;
     row <- Pandas.iloc stops i ;;
     Return (Some (stop_id row)))
    (Raise (ValueError "Stop not found using method: geo_search")).

(** The values of the C library at the arguments that the query point
    (0.08, 0) and a stop at (-0.08, 180) lead to, and a NaN elsewhere. *)
Definition sample_math : math :=
  mkmath
    (fun x => if x =? -0x1.6e05a695f8191p-10 then Return (-0x1.6e059ecaa87dcp-10)
              else if x =? 0x1.921fb54442d18p+0 then Return 1
              else Return nan)
    (fun x => if abs x =? 0x1.6e05a695f8191p-10 then Return 0x1.ffffdf4abdd1ep-1
              else Return nan)
    (fun y x => Return nan)
    (fun x y => if x =? -0x1.6e059ecaa87dcp-10 then Return 0x1.05aa091588187p-19
                else if x =? 1 then Return 1
                else Return nan).

End Float64.

(** * Properties *)

Local Open Scope list_scope.

(** ** The haversine term *)

Section Haversine.
Local Open Scope R_scope.

Lemma sin_half_sqr (x : R) : sin (x / 2) ^ 2 = (1 - cos x) / 2.
Proof.
  assert (H : cos x = 1 - 2 * sin (x / 2) * sin (x / 2)).
  { rewrite <- cos_2a_sin. f_equal. lra. }
  rewrite H. simpl. lra.
Qed.

(** Over the real numbers the haversine term stays within [0, 1]; that the
    binary64 term can leave this interval is a matter of rounding alone. *)
Lemma haversine_a_range (lat1 lon1 lat2 lon2 : R) :
  0 <= Utils.haversine_a lat1 lon1 lat2 lon2 <= 1.
Proof.
  unfold Utils.haversine_a. cbv zeta.
  rewrite !sin_half_sqr.
  replace (Utils.radians (lat2 - lat1)) with (Utils.radians lat2 - Utils.radians lat1)
    by (unfold Utils.radians; lra).
  rewrite cos_minus.
  set (A := Utils.radians lat1). set (B := Utils.radians lat2).
  set (t := cos (Utils.radians (lon2 - lon1))).
  pose proof (sin2_cos2 A) as HA. pose proof (sin2_cos2 B) as HB.
  unfold Rsqr in HA, HB.
  pose proof (COS_bound (Utils.radians (lon2 - lon1))) as [Ht1 Ht2]. fold t in Ht1, Ht2.
  set (sA := sin A) in *. set (cA := cos A) in *.
  set (sB := sin B) in *. set (cB := cos B) in *.
  assert (H1 : 0 <= (1 + t) * (cA - cB) ^ 2) by (apply Rmult_le_pos; [lra | apply pow2_ge_0]).
  assert (H2 : 0 <= (1 - t) * (cA + cB) ^ 2) by (apply Rmult_le_pos; [lra | apply pow2_ge_0]).
  assert (H3 : 0 <= (1 - t) * (cA - cB) ^ 2) by (apply Rmult_le_pos; [lra | apply pow2_ge_0]).
  assert (H4 : 0 <= (1 + t) * (cA + cB) ^ 2) by (apply Rmult_le_pos; [lra | apply pow2_ge_0]).
  pose proof (pow2_ge_0 (sA - sB)) as H5. pose proof (pow2_ge_0 (sA + sB)) as H6.
  split; nra.
Qed.

End Haversine.

(** ** The outcome monad and [apply] *)

Lemma apply_total {A B : Type} (f : A -> outcome B) (g : A -> B) (l : list A) :
  (forall x, In x l -> f x = Return (g x)) -> apply f l = Return (map g l).
Proof.
  induction l as [|x t IH]; intros H; simpl; [reflexivity|].
  rewrite (H x (or_introl eq_refl)). simpl.
  rewrite IH by (intros y Hy; apply H; right; exact Hy). reflexivity.
Qed.

(** ** First minimum and first maximum *)

Section ArgBest.
Local Open Scope R_scope.
Local Open Scope list_scope.





End ArgBest.

(** ** Stop resolution *)

Lemma math_sqrt_nonneg (x : R) : (0 <= x)%R -> Utils.math_sqrt x = Return (sqrt x).
Proof.
  intros H. unfold Utils.math_sqrt. destruct (Rlt_dec x 0); [lra | reflexivity].
Qed.


Section GeoSearchBinary64.
Import PrimFloat.
Local Open Scope float_scope.

(** C1 (the code at the failing input). The query point is (0.08, 0) and
    the table holds one stop, at (-0.08, 180).  With the values that the C
    library returns for the sines and cosines of this pair, the haversine
    term is 1 + 2^-52, the square root of 1 - a is a domain error, and the
    geo search raises this [ValueError], which the handler for [IndexError]
    lets pass: no stop is returned. *)
Theorem geo_search_antipodal_domain_error (m : Float64.math)
    (idxmin : list float -> outcome nat) :
  Float64.sin m (-0x1.6e05a695f8191p-10) = Return (-0x1.6e059ecaa87dcp-10) ->
  Float64.pow m (-0x1.6e059ecaa87dcp-10) 2 = Return 0x1.05aa091588187p-19 ->
  Float64.cos m 0x1.6e05a695f8191p-10 = Return 0x1.ffffdf4abdd1ep-1 ->
  Float64.cos m (-0x1.6e05a695f8191p-10) = Return 0x1.ffffdf4abdd1ep-1 ->
  Float64.sin m 0x1.921fb54442d18p+0 = Return 1 ->
  Float64.pow m 1 2 = Return 1 ->
  Float64.geo_search m idxmin
    [Float64.mkstop "AP" (-0x1.47ae147ae147bp-4) 180] 0x1.47ae147ae147bp-4 0
    = Raise (ValueError "math domain error").
Proof.
  intros Hs1 Hp1 Hc1 Hc2 Hs2 Hp2.
  unfold Float64.geo_search, Float64.calculate_distance.
  cbn [apply Float64.stop_lat Float64.stop_lon]. cbv zeta.
  change (Float64.radians (-0x1.47ae147ae147bp-4 - 0x1.47ae147ae147bp-4) / 2)
    with (-0x1.6e05a695f8191p-10).
  change (Float64.radians (180 - 0) / 2) with 0x1.921fb54442d18p+0.
  change (Float64.radians 0x1.47ae147ae147bp-4) with 0x1.6e05a695f8191p-10.
  change (Float64.radians (-0x1.47ae147ae147bp-4)) with (-0x1.6e05a695f8191p-10).
  rewrite Hs1. cbn [bind]. rewrite Hp1. cbn [bind]. rewrite Hc1. cbn [bind].
  rewrite Hc2. cbn [bind]. rewrite Hs2. cbn [bind]. rewrite Hp2. cbn [bind].
  reflexivity.
Qed.

(** C1 at the values of the C library tabulated in [Float64.sample_math]. *)
Lemma geo_search_antipodal_domain_error_witness :
  Float64.sin Float64.sample_math (-0x1.6e05a695f8191p-10)
    = Return (-0x1.6e059ecaa87dcp-10) /\
  Float64.pow Float64.sample_math (-0x1.6e059ecaa87dcp-10) 2
    = Return 0x1.05aa091588187p-19 /\
  Float64.cos Float64.sample_math 0x1.6e05a695f8191p-10 = Return 0x1.ffffdf4abdd1ep-1 /\
  Float64.cos Float64.sample_math (-0x1.6e05a695f8191p-10) = Return 0x1.ffffdf4abdd1ep-1 /\
  Float64.sin Float64.sample_math 0x1.921fb54442d18p+0 = Return 1 /\
  Float64.pow Float64.sample_math 1 2 = Return 1 /\
  Float64.geo_search Float64.sample_math (fun _ => Return 0%nat)
    [Float64.mkstop "AP" (-0x1.47ae147ae147bp-4) 180] 0x1.47ae147ae147bp-4 0
    = Raise (ValueError "math domain error").
Proof.
  repeat (split; [reflexivity|]).
  apply (geo_search_antipodal_domain_error Float64.sample_math (fun _ => Return 0%nat));
    reflexivity.
Defined.

End GeoSearchBinary64.

Lemma calculate_cosine_similarity_value (u v : list R) :
  List.length u <> 0%nat -> List.length v = List.length u ->
  Utils.calculate_cosine_similarity u v
    = Return (Utils.dot (Utils.normalize u) (Utils.normalize v)).
Proof.
  intros Hu Hv. unfold Utils.calculate_cosine_similarity, Utils.cosine_similarity.
  cbv zeta.
  destruct (Nat.eqb_spec (List.length u) 0); [contradiction|].
  destruct (Nat.eqb_spec (List.length v) 0); [congruence|].
  destruct (Nat.eqb_spec (List.length u) (List.length v)); [|congruence].
  reflexivity.
Qed.

(** The similarity of (3, 4) and (4, 3): both norms are 5, the dot product
    of the normalized rows is 24/25. *)
Lemma calculate_cosine_similarity_3_4 :
  Utils.calculate_cosine_similarity [3; 4]%R [4; 3]%R = Return (24 / 25)%R.
Proof.
  rewrite calculate_cosine_similarity_value by (simpl; congruence).
  assert (Hn : forall u, Utils.dot u u = (5 * 5)%R ->
            Utils.handle_zeros_in_scale (Utils.row_norm u) = 5%R).
  { intros u Hu. unfold Utils.row_norm. rewrite Hu, sqrt_square by lra.
    unfold Utils.handle_zeros_in_scale, Utils.eps.
    destruct (Rlt_dec 5 (10 * / 2 ^ 52)) as [Hlt|_]; [|reflexivity].
    exfalso. assert (H1 : (1 <= 2 ^ 52)%R) by (apply pow_R1_Rle; lra).
    assert (H2 : (/ 2 ^ 52 <= 1)%R).
    { rewrite <- Rinv_1. apply Rinv_le_contravar; lra. }
    lra. }
  unfold Utils.normalize.
  rewrite (Hn [3; 4]%R) by (simpl; lra).
  rewrite (Hn [4; 3]%R) by (simpl; lra).
  simpl. f_equal. lra.
Qed.


Lemma apply_raise {A B : Type} (f : A -> outcome B) (l : list A) (e : exn) :
  apply f l = Raise e -> exists x, In x l /\ f x = Raise e.
Proof.
  induction l as [|x t IH]; simpl; [discriminate|].
  destruct (f x) as [y|e'] eqn:Hx; simpl.
  - destruct (apply f t) as [ys|e''] eqn:Ht; simpl; [discriminate|].
    intros H. injection H as ->. destruct (IH eq_refl) as (z & Hz & Hfz).
    exists z. split; [right; exact Hz | exact Hfz].
  - intros H. injection H as ->. exists x. split; [left; reflexivity | exact Hx].
Qed.


Lemma calculate_cosine_similarity_raise (u v : list R) (e : exn) :
  Utils.calculate_cosine_similarity u v = Raise e ->
  e = ValueError "Found array with 0 feature(s)" \/
  e = ValueError "Incompatible dimension for X and Y matrices".
Proof.
  unfold Utils.calculate_cosine_similarity, Utils.cosine_similarity. cbv zeta.
  destruct (List.length u =? 0)%nat; [intros H; injection H as <-; left; reflexivity|].
  destruct (List.length v =? 0)%nat; [intros H; injection H as <-; left; reflexivity|].
  destruct (negb _); [intros H; injection H as <-; right; reflexivity | discriminate].
Qed.




(** ** Cosine similarity with a zero vector *)

Lemma dot_zero_l (u v : list R) : Forall (fun x => x = 0%R) u -> Utils.dot u v = 0%R.
Proof.
  intros H. revert v. induction H as [|x u Hx _ IH]; intros v; [reflexivity|].
  destruct v as [|y v]; [reflexivity|]. simpl. rewrite IH, Hx. lra.
Qed.

Lemma dot_zero_r (u v : list R) : Forall (fun x => x = 0%R) v -> Utils.dot u v = 0%R.
Proof.
  intros H. revert u. induction H as [|y v Hy _ IH]; intros u.
  - destruct u; reflexivity.
  - destruct u as [|x u]; [reflexivity|]. simpl. rewrite IH, Hy. lra.
Qed.

Lemma normalize_zero (u : list R) :
  Forall (fun x => x = 0%R) u -> Forall (fun x => x = 0%R) (Utils.normalize u).
Proof.
  intros H. unfold Utils.normalize. cbv zeta. apply Forall_map.
  eapply Forall_impl; [|exact H]. intros x ->. unfold Rdiv. apply Rmult_0_l.
Qed.

Lemma cosine_zero_returns (u v : list R) :
  List.length u <> 0%nat -> List.length v = List.length u ->
  Forall (fun x => x = 0%R) u \/ Forall (fun x => x = 0%R) v ->
  Utils.calculate_cosine_similarity u v = Return 0%R.
Proof.
  intros Hu Hv Hz.
  unfold Utils.calculate_cosine_similarity, Utils.cosine_similarity. cbv zeta.
  destruct (Nat.eqb_spec (List.length u) 0); [contradiction|].
  destruct (Nat.eqb_spec (List.length v) 0); [congruence|].
  destruct (Nat.eqb_spec (List.length u) (List.length v)); [|congruence].
  simpl. f_equal.
  destruct Hz as [Hz|Hz].
  - apply dot_zero_l, normalize_zero, Hz.
  - apply dot_zero_r, normalize_zero, Hz.
Qed.

(** C7 (as stated, refuted). The similarity of the zero vector [0; 0] and
    [1; 0] is computed without any error: the result is the number 0. *)
Lemma cosine_zero_vector_is_not_an_error :
  Utils.calculate_cosine_similarity [0; 0]%R [1; 0]%R = Return 0%R /\
  forall e, Utils.calculate_cosine_similarity [0; 0]%R [1; 0]%R <> Raise e.
Proof.
  assert (H : Utils.calculate_cosine_similarity [0; 0]%R [1; 0]%R = Return 0%R).
  { apply cosine_zero_returns; [discriminate | reflexivity |].
    left. repeat constructor. }
  split; [exact H | intros e; rewrite H; discriminate].
Qed.

(** C7 (amended). For two vectors of one positive width of which at least
    one is the zero vector, the cosine similarity is computed without error
    and is 0. *)
Theorem cosine_zero_vector_returns_zero (vec1 vec2 : list R) :
  List.length vec1 <> 0%nat -> List.length vec2 = List.length vec1 ->
  Forall (fun x => x = 0%R) vec1 \/ Forall (fun x => x = 0%R) vec2 ->
  Utils.calculate_cosine_similarity vec1 vec2 = Return 0%R.
Proof. exact (cosine_zero_returns vec1 vec2). Qed.

(** C7 (amended) at the vectors [1; 2] and [0; 0]. *)
Lemma cosine_zero_vector_returns_zero_witness :
  List.length [1; 2]%R <> 0%nat /\
  List.length [0; 0]%R = List.length [1; 2]%R /\
  (Forall (fun x => x = 0%R) [1; 2]%R \/ Forall (fun x => x = 0%R) [0; 0]%R) /\
  Utils.calculate_cosine_similarity [1; 2]%R [0; 0]%R = Return 0%R.
Proof.
  assert (H1 : List.length [1; 2]%R <> 0%nat) by discriminate.
  assert (H2 : List.length [0; 0]%R = List.length [1; 2]%R) by reflexivity.
  assert (H3 : Forall (fun x => x = 0%R) [1; 2]%R \/ Forall (fun x => x = 0%R) [0; 0]%R)
    by (right; repeat constructor).
  split; [exact H1|]. split; [exact H2|]. split; [exact H3|].
  exact (cosine_zero_vector_returns_zero [1; 2]%R [0; 0]%R H1 H2 H3).
Defined.

(** ** The method dispatch of [get_stop_id] *)

Lemma get_stop_id_unknown_method (self : GoAPISimulator) (stop_name : option string)
    (lat long : option R) (m : string) :
  m <> "embedding_search" -> m <> "geo_search" ->
  get_stop_id self stop_name lat long (Some m) = Return None.
Proof.
  intros H1 H2. unfold get_stop_id.
  apply String.eqb_neq in H1. apply String.eqb_neq in H2.
  rewrite H1, H2. reflexivity.
Qed.

(** C6 (the code at the failing input). With a method the dispatch does not
    know, the call returns Python's [None]: no stop id and no exception. *)
Theorem get_stop_id_fuzzy_search_returns_None :
  get_stop_id (Fixture.store []) (Some "Union Station") None None (Some "fuzzy_search")
    = Return None.
Proof. reflexivity. Qed.

(** ** The next available trip *)

(** C10. The next available trip is one fixed record, whatever the store,
    the two stop ids and the time are. *)
Theorem get_next_available_trip_constant (self : GoAPISimulator)
    (o_stop_id d_stop_id : string) (time : option string) :
  get_next_available_trip self o_stop_id d_stop_id time
    = NextTrip.mk "907" "Oshawa GO" "Union Station" "07:42:00" "08:45:00".
Proof. reflexivity. Qed.

(** ** Trip assembly *)

(** C3 (the code at the failing input). Trip 907 is stored last stop first:
    its row with the smallest sequence number is the one at Oshawa GO, and
    the assembled trip has Union Station as origin and Oshawa GO as
    destination, with the times of those rows. *)
Theorem get_trip_info_origin_is_first_physical_row :
  exists info,
    get_trip_info (Fixture.store Fixture.unsorted_trip) "907" "20180301" "LE"
      = Return info /\
    TripInfo.origin info = Some "Union Station" /\
    TripInfo.departure_time info = Some "08:45:00" /\
    TripInfo.destination info = Some "Oshawa GO" /\
    TripInfo.arrival_time info = Some "07:42:00" /\
    TripInfo.stop_sequence info =
      [ TripInfo.mk_entry 1 (Some "Oshawa GO") (Some "07:42:00") (Some "07:42:00");
        TripInfo.mk_entry 2 (Some "Union Station") (Some "08:45:00") (Some "08:45:00") ].
Proof.
  eexists. split; [reflexivity|]. repeat split.
Qed.

(** C8 (the code at the failing input). The first stop of trip 907 has no
    headsign: the trip is assembled all the same, with a null headsign. *)
Theorem get_trip_info_null_headsign_is_returned :
  exists info,
    get_trip_info (Fixture.store Fixture.trip_without_headsign) "907" "20180301" "LE"
      = Return info /\
    TripInfo.stop_headsign info = None.
Proof.
  eexists. split; reflexivity.
Qed.

Lemma fold_left_min_spec (t : list Z) (h : Z) :
  In (fold_left Z.min t h) (h :: t) /\
  forall x, In x (h :: t) -> fold_left Z.min t h <= x.
Proof.
  revert h. induction t as [|y t IH]; intros h; simpl.
  - split; [left; reflexivity | intros x [<-|[]]; lia].
  - destruct (IH (Z.min h y)) as [Hin Hle]. split.
    + destruct Hin as [Hm|Hm]; [|right; right; exact Hm].
      rewrite <- Hm. destruct (Z.min_spec h y) as [[_ ->]|[_ ->]]; auto.
    + intros x [<-|[<-|Hx]].
      * specialize (Hle (Z.min h y) (or_introl eq_refl)). lia.
      * specialize (Hle (Z.min h y) (or_introl eq_refl)). lia.
      * apply Hle. right. exact Hx.
Qed.

Lemma series_min_spec (s : list Z) :
  s <> [] ->
  exists m, Pandas.series_min s = Some m /\ In m s /\ forall x, In x s -> m <= x.
Proof.
  destruct s as [|h t]; [congruence|]; intros _.
  exists (fold_left Z.min t h). split; [reflexivity|]. apply fold_left_min_spec.
Qed.

Lemma find_filter {A : Type} (p : A -> bool) (l : list A) (r : A) :
  find p l = Some r -> exists rest, filter p l = r :: rest.
Proof.
  induction l as [|x t IH]; simpl; [discriminate|].
  destruct (p x); [intros H; injection H as <-; eexists; reflexivity | exact IH].
Qed.

Lemma find_some_of_In {A : Type} (p : A -> bool) (l : list A) (x : A) :
  In x l -> p x = true -> exists r, find p l = Some r.
Proof.
  induction l as [|y t IH]; simpl; [contradiction|].
  intros [->|Hx] Hp.
  - rewrite Hp. eexists. reflexivity.
  - destruct (p y); [eexists; reflexivity | exact (IH Hx Hp)].
Qed.

Lemma last_cons_default {A : Type} (l : list A) (a d d' : A) :
  last (a :: l) d = last (a :: l) d'.
Proof.
  revert a. induction l as [|b l IH]; intros a; [reflexivity|].
  change (last (b :: l) d = last (b :: l) d'). apply IH.
Qed.

Lemma nth_error_last {A : Type} (rest : list A) (r0 : A) :
  nth_error (r0 :: rest) (List.length rest) = Some (last rest r0).
Proof.
  revert r0. induction rest as [|r1 rest IH]; intros r0; [reflexivity|].
  change (nth_error (r1 :: rest) (List.length rest) = Some (last (r1 :: rest) r0)).
  rewrite IH. f_equal. destruct rest as [|a rest]; [reflexivity|].
  change (last (a :: rest) r1 = last (a :: rest) r0). apply last_cons_default.
Qed.

(** What [get_trip_info] returns for a trip that has rows: the headsign of
    the first row with the smallest sequence number, be it null; origin and
    departure of the first physical row, destination and arrival of the
    last one; the grouped entries. *)
Lemma get_trip_info_returns (self : GoAPISimulator) (trip_id date corridor : string)
    (r0 : StopTime.t * Stop.t) (rest : list (StopTime.t * Stop.t)) :
  trip_data_of self (full_trip_id trip_id date corridor) = r0 :: rest ->
  exists rmin,
    find (fun r => row_stop_sequence r =? row_stop_sequence rmin) (r0 :: rest)
      = Some rmin /\
    (forall r, In r (r0 :: rest) -> row_stop_sequence rmin <= row_stop_sequence r) /\
    get_trip_info self trip_id date corridor =
      Return (TripInfo.mk (full_trip_id trip_id date corridor)
                (StopTime.stop_headsign (fst rmin))
                (Stop.stop_name (snd r0))
                (Stop.stop_name (snd (last rest r0)))
                (StopTime.departure_time (fst r0))
                (StopTime.arrival_time (fst (last rest r0)))
                (grouped_entries (r0 :: rest))).
Proof.
  intros Htd.
  destruct (series_min_spec (map row_stop_sequence (r0 :: rest))) as (m & Hm & Hin & Hle);
    [discriminate|].
  apply in_map_iff in Hin. destruct Hin as (rm & Hrm & Hrin).
  destruct (find_some_of_In (fun r => row_stop_sequence r =? m) (r0 :: rest) rm Hrin)
    as [rmin Hfind]; [apply Z.eqb_eq; exact Hrm|].
  pose proof (find_some _ _ Hfind) as [_ Hseq]. apply Z.eqb_eq in Hseq.
  exists rmin. rewrite Hseq. split; [exact Hfind|]. split.
  - intros r Hr. apply Hle. apply in_map. exact Hr.
  - destruct (find_filter _ _ _ Hfind) as [more Hfilter].
    unfold get_trip_info. cbv zeta. fold (full_trip_id trip_id date corridor).
    rewrite Htd, Hm, Hfilter.
    unfold Pandas.iloc_last, Pandas.iloc.
    replace (List.length (r0 :: rest) - 1)%nat with (List.length rest) by (simpl; lia).
    rewrite nth_error_last. reflexivity.
Qed.

(** With a sequence number in every row, as the model has it, the handler
    for a missing headsign is not reached. *)
Lemma get_trip_info_never_misses_headsign (self : GoAPISimulator)
    (trip_id date corridor : string) :
  get_trip_info self trip_id date corridor
    <> Raise (ValueError ("Missing stop_headsign for trip " ++ trip_id ++ ".")%string).
Proof.
  destruct (trip_data_of self (full_trip_id trip_id date corridor)) as [|r0 rest] eqn:Htd.
  - unfold get_trip_info. cbv zeta. fold (full_trip_id trip_id date corridor).
    rewrite Htd. simpl. discriminate.
  - destruct (get_trip_info_returns _ _ _ _ _ _ Htd) as (rmin & _ & _ & ->). discriminate.
Qed.

(** ** The grouped stop sequence *)

Lemma insert_key_In (k : Z) (ks : list Z) (x : Z) :
  In x (Pandas.insert_key k ks) <-> x = k \/ In x ks.
Proof.
  induction ks as [|h t IH]; simpl.
  - intuition.
  - destruct (Z.ltb_spec k h); [simpl; intuition|].
    destruct (Z.eqb_spec k h); simpl; [subst; intuition|].
    rewrite IH. intuition.
Qed.

Lemma insert_key_sorted (k : Z) (ks : list Z) :
  StronglySorted Z.lt ks -> StronglySorted Z.lt (Pandas.insert_key k ks).
Proof.
  induction 1 as [|h t Ht IH Hh]; simpl.
  - constructor; constructor.
  - destruct (Z.ltb_spec k h).
    + constructor; [constructor; assumption|].
      constructor; [assumption|].
      eapply Forall_impl; [|exact Hh]. intros x Hx. simpl in Hx. lia.
    + destruct (Z.eqb_spec k h); [constructor; assumption|].
      constructor; [exact IH|].
      apply Forall_forall. intros x Hx. apply insert_key_In in Hx.
      destruct Hx as [->|Hx]; [lia|].
      rewrite Forall_forall in Hh. apply Hh. exact Hx.
Qed.

Lemma group_keys_In (ks : list Z) (x : Z) : In x (Pandas.group_keys ks) <-> In x ks.
Proof.
  induction ks as [|k t IH]; simpl; [reflexivity|].
  rewrite insert_key_In, IH. intuition.
Qed.

Lemma group_keys_sorted (ks : list Z) : StronglySorted Z.lt (Pandas.group_keys ks).
Proof.
  induction ks as [|k t IH]; simpl; [constructor | apply insert_key_sorted, IH].
Qed.

Lemma StronglySorted_lt_NoDup (ks : list Z) : StronglySorted Z.lt ks -> NoDup ks.
Proof.
  induction 1 as [|h t _ IH Hh]; constructor; [|exact IH].
  intros Hin. rewrite Forall_forall in Hh. specialize (Hh h Hin). lia.
Qed.

Lemma grouped_entries_keys (trip_data : list (StopTime.t * Stop.t)) :
  map TripInfo.entry_stop_sequence (grouped_entries trip_data)
    = Pandas.group_keys (map row_stop_sequence trip_data).
Proof.
  unfold grouped_entries. rewrite map_map. simpl. apply map_id.
Qed.

(** C9 (as stated, refuted). The first stop of trip 907 is stored twice,
    once without arrival time and once without departure time: the entry of
    sequence number 1 in the assembled trip takes the arrival time of the
    second copy, so it represents neither the first-seen row nor any other
    row of the trip. *)
Lemma stop_sequence_entry_represents_no_row :
  exists info e,
    get_trip_info (Fixture.store Fixture.trip_with_duplicate_rows) "907" "20180301" "LE"
      = Return info /\
    In e (TripInfo.stop_sequence info) /\
    TripInfo.entry_stop_sequence e = 1 /\
    forall r,
      In r (trip_data_of (Fixture.store Fixture.trip_with_duplicate_rows)
              (full_trip_id "907" "20180301" "LE")) ->
      e <> entry_of_row r.
Proof.
  eexists. eexists. split; [reflexivity|]. split; [left; reflexivity|].
  split; [reflexivity|].
  intros r [<-|[<-|[<-|[]]]]; discriminate.
Qed.

(** C9 (amended). For every trip that has rows, the stop sequence of the
    assembled trip is strictly ascending in the sequence number, hence free
    of duplicates; its sequence numbers are exactly those of the trip's
    rows; in each entry the stop name, the arrival time and the departure
    time are, each on its own, the first value that is not null among the
    rows of that sequence number in row order; so the entry is the one of
    the first-seen row whenever that row has all three values. *)
Theorem stop_sequence_sorted_first_valid (self : GoAPISimulator)
    (trip_id date corridor : string) :
  trip_data_of self (full_trip_id trip_id date corridor) <> [] ->
  exists info,
    get_trip_info self trip_id date corridor = Return info /\
    StronglySorted Z.lt (map TripInfo.entry_stop_sequence (TripInfo.stop_sequence info)) /\
    NoDup (map TripInfo.entry_stop_sequence (TripInfo.stop_sequence info)) /\
    (forall k, In k (map TripInfo.entry_stop_sequence (TripInfo.stop_sequence info))
               <-> In k (map row_stop_sequence
                         (trip_data_of self (full_trip_id trip_id date corridor)))) /\
    (forall e, In e (TripInfo.stop_sequence info) ->
       let group := filter (fun r => row_stop_sequence r =? TripInfo.entry_stop_sequence e)
                           (trip_data_of self (full_trip_id trip_id date corridor)) in
       TripInfo.entry_stop_name e
         = Pandas.first_valid (map (fun r => Stop.stop_name (snd r)) group) /\
       TripInfo.entry_arrival_time e
         = Pandas.first_valid (map (fun r => StopTime.arrival_time (fst r)) group) /\
       TripInfo.entry_departure_time e
         = Pandas.first_valid (map (fun r => StopTime.departure_time (fst r)) group)) /\
    (forall e r, In e (TripInfo.stop_sequence info) ->
       find (fun r => row_stop_sequence r =? TripInfo.entry_stop_sequence e)
            (trip_data_of self (full_trip_id trip_id date corridor)) = Some r ->
       complete_row r -> e = entry_of_row r).
Proof.
  intros Hne.
  destruct (trip_data_of self (full_trip_id trip_id date corridor)) as [|r0 rest] eqn:Htd;
    [congruence|]. clear Hne.
  destruct (get_trip_info_returns self trip_id date corridor r0 rest Htd)
    as (rmin & _ & _ & Hret).
  eexists. split; [exact Hret|]. simpl TripInfo.stop_sequence.
  assert (Hentry : forall e, In e (grouped_entries (r0 :: rest)) ->
            let group := filter (fun r => row_stop_sequence r =? TripInfo.entry_stop_sequence e)
                                (r0 :: rest) in
            e = TripInfo.mk_entry (TripInfo.entry_stop_sequence e)
                  (Pandas.first_valid (map (fun r => Stop.stop_name (snd r)) group))
                  (Pandas.first_valid (map (fun r => StopTime.arrival_time (fst r)) group))
                  (Pandas.first_valid (map (fun r => StopTime.departure_time (fst r)) group))).
  { intros e He. unfold grouped_entries in He. apply in_map_iff in He.
    destruct He as (k & <- & _). reflexivity. }
  rewrite grouped_entries_keys.
  split; [apply group_keys_sorted|].
  split; [apply StronglySorted_lt_NoDup, group_keys_sorted|].
  split; [intros k; apply group_keys_In|].
  split.
  - intros e He group. pose proof (Hentry e He) as H. cbv zeta in H. fold group in H.
    rewrite H. simpl. repeat split; reflexivity.
  - intros e r He Hfind (Hn & Ha & Hd).
    pose proof (Hentry e He) as H. cbv zeta in H.
    pose proof (find_some _ _ Hfind) as [_ Hseq]. apply Z.eqb_eq in Hseq.
    destruct (find_filter _ _ _ Hfind) as [more Hfilter].
    rewrite Hfilter in H. simpl in H.
    destruct (Stop.stop_name (snd r)) eqn:En; [|congruence].
    destruct (StopTime.arrival_time (fst r)) eqn:Ea; [|congruence].
    destruct (StopTime.departure_time (fst r)) eqn:Ed; [|congruence].
    rewrite H. unfold entry_of_row. rewrite En, Ea, Ed, Hseq. reflexivity.
Qed.

(** C9 (amended) at the trip stored last stop first. *)
Lemma stop_sequence_sorted_first_valid_witness :
  trip_data_of (Fixture.store Fixture.unsorted_trip) (full_trip_id "907" "20180301" "LE")
    <> [] /\
  exists info,
    get_trip_info (Fixture.store Fixture.unsorted_trip) "907" "20180301" "LE"
      = Return info /\
    StronglySorted Z.lt (map TripInfo.entry_stop_sequence (TripInfo.stop_sequence info)) /\
    NoDup (map TripInfo.entry_stop_sequence (TripInfo.stop_sequence info)).
Proof.
  assert (Hne : trip_data_of (Fixture.store Fixture.unsorted_trip)
                  (full_trip_id "907" "20180301" "LE") <> []) by discriminate.
  split; [exact Hne|].
  destruct (stop_sequence_sorted_first_valid (Fixture.store Fixture.unsorted_trip)
              "907" "20180301" "LE" Hne) as (info & Hret & Hsorted & Hnodup & _).
  exists info. split; [exact Hret|]. split; [exact Hsorted | exact Hnodup].
Defined.

(** ** Initialization *)

Lemma init_returns (env : Env) (data_dir : string) (start_date end_date : Z)
    (corridor : string) (calendar_dates : list CalendarDate.t) (trips : list Trip.t)
    (stop_times : list StopTime.t) (stop_rows : list Stop.t) (l101 : list L101.t)
    (l102 : list L102.t) (info : list DelayCodeInfo.t) :
  gtfs_dir env data_dir
    = mkgtfs (Some calendar_dates) (Some trips) (Some stop_times) (Some stop_rows) ->
  delay_dir env "Data/L101 and L102 - 2018" = mkdelay (Some l101) (Some l102) (Some info) ->
  __init__ env data_dir start_date end_date corridor =
    Return (mksim stop_rows
              (SentenceTransformer env "sentence-transformers/all-roberta-large-v1")
              (filter (fun r =>
                         Pandas.isin_str (StopTime.trip_id r)
                           (Pandas.unique
                              (map Trip.trip_id
                                   (valid_trips calendar_dates trips start_date end_date
                                      corridor))))
                      stop_times)
              (Pandas.sort_values
                 (fun a b => Timestamp_leb (DelayLog.OperationDateTime a)
                                           (DelayLog.OperationDateTime b))
                 (filter (delay_log_filter corridor) (merge_data l101 l102 info)))).
Proof.
  intros Hg Hd. unfold __init__, read_from_file. rewrite Hg, Hd. reflexivity.
Qed.

Lemma filter_none {A : Type} (p : A -> bool) (l : list A) :
  (forall x, p x = false) -> filter p l = [].
Proof.
  intros H. induction l as [|x t IH]; simpl; [reflexivity|]. rewrite H. exact IH.
Qed.

Lemma get_trip_info_empty_store (sim : GoAPISimulator) (trip_id date corr : string) :
  stop_time_clean sim = [] ->
  get_trip_info sim trip_id date corr
    = Raise (ValueError ("Trip ID " ++ full_trip_id trip_id date corr ++ " not found.")%string).
Proof.
  intros H. unfold get_trip_info, trip_data_of. rewrite H. reflexivity.
Qed.

(** C4 (as stated, refuted). No trip of the data directory runs on corridor
    LE, and initialization for that corridor completes with a store. *)
Lemma init_with_zero_trips_completes :
  exists calendar_dates trips sim,
    calendar_dates_txt (gtfs_dir Fixture.env "Data/gtfs-2018") = Some calendar_dates /\
    trips_txt (gtfs_dir Fixture.env "Data/gtfs-2018") = Some trips /\
    valid_trips calendar_dates trips 20180301 20180308 "LE" = [] /\
    __init__ Fixture.env "Data/gtfs-2018" 20180301 20180308 "LE" = Return sim.
Proof.
  do 3 eexists. repeat split; reflexivity.
Qed.

(** C4 (amended). When the files load and the service-date and corridor
    filter yields zero trips, initialization completes with a store that
    holds no stop-time row, and every later trip query on that store fails
    with the not-found error. *)
Theorem init_zero_trips_gives_empty_store (env : Env) (data_dir : string)
    (start_date end_date : Z) (corridor : string)
    (calendar_dates : list CalendarDate.t) (trips : list Trip.t)
    (stop_times : list StopTime.t) (stop_rows : list Stop.t) (l101 : list L101.t)
    (l102 : list L102.t) (info : list DelayCodeInfo.t) :
  gtfs_dir env data_dir
    = mkgtfs (Some calendar_dates) (Some trips) (Some stop_times) (Some stop_rows) ->
  delay_dir env "Data/L101 and L102 - 2018" = mkdelay (Some l101) (Some l102) (Some info) ->
  valid_trips calendar_dates trips start_date end_date corridor = [] ->
  exists sim,
    __init__ env data_dir start_date end_date corridor = Return sim /\
    stop_time_clean sim = [] /\
    forall trip_id date corr,
      get_trip_info sim trip_id date corr
        = Raise (ValueError ("Trip ID " ++ full_trip_id trip_id date corr ++ " not found.")%string).
Proof.
  intros Hg Hd Hv. eexists. split; [exact (init_returns _ _ _ _ _ _ _ _ _ _ _ _ Hg Hd)|].
  assert (Hf : filter (fun r =>
                         Pandas.isin_str (StopTime.trip_id r)
                           (Pandas.unique
                              (map Trip.trip_id
                                   (valid_trips calendar_dates trips start_date end_date
                                      corridor))))
                      stop_times = []).
  { rewrite Hv. apply filter_none. reflexivity. }
  split; [exact Hf|].
  intros trip_id date corr. apply get_trip_info_empty_store. exact Hf.
Qed.

(** C4 (amended) at a data directory without a trip on corridor LE. *)
Lemma init_zero_trips_gives_empty_store_witness :
  gtfs_dir Fixture.env "Data/gtfs-2018" = Fixture.gtfs_files /\
  delay_dir Fixture.env "Data/L101 and L102 - 2018" = Fixture.delay_files /\
  valid_trips [CalendarDate.mk 20180301]
    [Trip.mk "20180301-LW-100" 20180301 "01180-LW"] 20180301 20180308 "LE" = [] /\
  exists sim,
    __init__ Fixture.env "Data/gtfs-2018" 20180301 20180308 "LE" = Return sim /\
    stop_time_clean sim = [] /\
    forall trip_id date corr,
      get_trip_info sim trip_id date corr
        = Raise (ValueError ("Trip ID " ++ full_trip_id trip_id date corr ++ " not found.")%string).
Proof.
  split; [reflexivity|]. split; [reflexivity|]. split; [reflexivity|].
  apply (init_zero_trips_gives_empty_store Fixture.env "Data/gtfs-2018" 20180301 20180308
           "LE" [CalendarDate.mk 20180301] [Trip.mk "20180301-LW-100" 20180301 "01180-LW"]
           [StopTime.mk "20180301-LW-100" "UN" 1 (Some "06:00:00") (Some "06:00:00")
              (Some "Kitchener GO")]
           Fixture.stop_table
           [L101.mk "907" (mkts (mkdate 2018 3 5) 27720) "LE"]
           [L102.mk "907" (Some "MECH")]
           [DelayCodeInfo.mk (Some "MECH") (Some "Mechanical failure")]);
    reflexivity.
Defined.

(** ** The delay-log snapshot *)

Lemma date_leb_iff (a b : date) :
  date_leb a b = true <->
  year a < year b \/
  (year a = year b /\ (month a < month b \/ (month a = month b /\ day a <= day b))).
Proof.
  unfold date_leb.
  rewrite !orb_true_iff, !andb_true_iff, !orb_true_iff, !andb_true_iff,
    !Z.ltb_lt, !Z.eqb_eq, Z.leb_le.
  reflexivity.
Qed.

Lemma date_eqb_iff (a b : date) :
  date_eqb a b = true <-> year a = year b /\ month a = month b /\ day a = day b.
Proof.
  unfold date_eqb. rewrite !andb_true_iff, !Z.eqb_eq. tauto.
Qed.

Lemma Timestamp_leb_iff (a b : Timestamp) :
  Timestamp_leb a b = true <->
  (date_leb (dt_date a) (dt_date b) = true /\ date_eqb (dt_date a) (dt_date b) <> true) \/
  (date_eqb (dt_date a) (dt_date b) = true /\ dt_seconds a <= dt_seconds b).
Proof.
  unfold Timestamp_leb.
  rewrite orb_true_iff, !andb_true_iff, negb_true_iff, Z.leb_le, not_true_iff_false.
  reflexivity.
Qed.

Lemma Timestamp_leb_total (a b : Timestamp) :
  Timestamp_leb a b = true \/ Timestamp_leb b a = true.
Proof.
  rewrite !Timestamp_leb_iff, !date_leb_iff, !date_eqb_iff. lia.
Qed.

Lemma Timestamp_leb_trans (a b c : Timestamp) :
  Timestamp_leb a b = true -> Timestamp_leb b c = true -> Timestamp_leb a c = true.
Proof.
  rewrite !Timestamp_leb_iff, !date_leb_iff, !date_eqb_iff. lia.
Qed.

Section SortValues.
Context {A : Type} (leb : A -> A -> bool).
Hypothesis leb_total : forall a b, leb a b = true \/ leb b a = true.
Hypothesis leb_trans : forall a b c, leb a b = true -> leb b c = true -> leb a c = true.

Lemma insert_sorted_perm (x : A) (l : list A) :
  Permutation (Pandas.insert_sorted leb x l) (x :: l).
Proof.
  induction l as [|h t IH]; simpl; [reflexivity|].
  destruct (leb x h); [reflexivity|].
  rewrite IH. apply perm_swap.
Qed.

Lemma sort_values_perm (l : list A) : Permutation (Pandas.sort_values leb l) l.
Proof.
  induction l as [|x t IH]; simpl; [reflexivity|].
  unfold Pandas.sort_values in *. simpl. rewrite insert_sorted_perm.
  apply perm_skip, IH.
Qed.

Lemma insert_sorted_sorted (x : A) (l : list A) :
  StronglySorted (fun a b => leb a b = true) l ->
  StronglySorted (fun a b => leb a b = true) (Pandas.insert_sorted leb x l).
Proof.
  induction 1 as [|h t Ht IH Hh]; simpl.
  - constructor; constructor.
  - destruct (leb x h) eqn:Hxh.
    + constructor; [constructor; assumption|].
      constructor; [exact Hxh|].
      eapply Forall_impl; [|exact Hh]. intros y Hy. exact (leb_trans _ _ _ Hxh Hy).
    + constructor; [exact IH|].
      rewrite Forall_forall in *. intros y Hy.
      apply (Permutation_in _ (insert_sorted_perm x t)) in Hy.
      destruct Hy as [<-|Hy]; [|apply Hh; exact Hy].
      destruct (leb_total x h) as [H|H]; [congruence | exact H].
Qed.

Lemma sort_values_sorted (l : list A) :
  StronglySorted (fun a b => leb a b = true) (Pandas.sort_values leb l).
Proof.
  induction l as [|x t IH]; [constructor|].
  unfold Pandas.sort_values in *. simpl. apply insert_sorted_sorted, IH.
Qed.

End SortValues.

Lemma delay_log_filter_iff (corridor : string) (r : DelayLog.t) :
  delay_log_filter corridor r = true <->
  date_leb (mkdate 2018 3 1) (dt_date (DelayLog.OperationDateTime r)) = true /\
  date_leb (dt_date (DelayLog.OperationDateTime r)) (mkdate 2018 3 8) = true /\
  DelayLog.CorridorId r = corridor /\
  DelayLog.DelayCode r <> None.
Proof.
  unfold delay_log_filter. rewrite !andb_true_iff, String.eqb_eq.
  destruct (DelayLog.DelayCode r); intuition congruence.
Qed.

(** C5 (as stated, refuted). Initialized for the window 1 to 8 April 2018,
    the store keeps a delay record of 5 March 2018 in its snapshot. *)
Lemma delay_logs_ignore_the_configured_window :
  exists sim r,
    __init__ Fixture.env "Data/gtfs-2018" 20180401 20180408 "LE" = Return sim /\
    In r (delay_logs_clean_df sim) /\
    date_as_int (dt_date (DelayLog.OperationDateTime r)) = 20180305 /\
    ~ (20180401 <= date_as_int (dt_date (DelayLog.OperationDateTime r)) <= 20180408).
Proof.
  do 2 eexists. split; [reflexivity|]. split; [left; reflexivity|].
  split; [reflexivity|]. cbn. lia.
Qed.

(** C5 (amended). After an initialization whose files load, the delay-log
    snapshot holds exactly the joined delay records dated from 1 March 2018
    to 8 March 2018 (a window that does not depend on the start and end
    dates), whose corridor is the configured one and whose delay code is not
    null, in ascending order of the operation timestamp. *)
Theorem delay_logs_fixed_window (env : Env) (data_dir : string)
    (start_date end_date : Z) (corridor : string)
    (calendar_dates : list CalendarDate.t) (trips : list Trip.t)
    (stop_times : list StopTime.t) (stop_rows : list Stop.t) (l101 : list L101.t)
    (l102 : list L102.t) (info : list DelayCodeInfo.t) :
  gtfs_dir env data_dir
    = mkgtfs (Some calendar_dates) (Some trips) (Some stop_times) (Some stop_rows) ->
  delay_dir env "Data/L101 and L102 - 2018" = mkdelay (Some l101) (Some l102) (Some info) ->
  exists sim,
    __init__ env data_dir start_date end_date corridor = Return sim /\
    Permutation (delay_logs_clean_df sim)
      (filter (delay_log_filter corridor) (merge_data l101 l102 info)) /\
    (forall r, In r (delay_logs_clean_df sim) <->
       In r (merge_data l101 l102 info) /\
       date_leb (mkdate 2018 3 1) (dt_date (DelayLog.OperationDateTime r)) = true /\
       date_leb (dt_date (DelayLog.OperationDateTime r)) (mkdate 2018 3 8) = true /\
       DelayLog.CorridorId r = corridor /\
       DelayLog.DelayCode r <> None) /\
    StronglySorted
      (fun a b => Timestamp_leb (DelayLog.OperationDateTime a)
                                (DelayLog.OperationDateTime b) = true)
      (delay_logs_clean_df sim).
Proof.
  intros Hg Hd. eexists. split; [exact (init_returns _ _ _ _ _ _ _ _ _ _ _ _ Hg Hd)|].
  simpl delay_logs_clean_df.
  set (leb := fun a b : DelayLog.t =>
                Timestamp_leb (DelayLog.OperationDateTime a) (DelayLog.OperationDateTime b)).
  split; [apply sort_values_perm|]. split.
  - intros r. rewrite <- delay_log_filter_iff, <- filter_In. split.
    + apply Permutation_in, sort_values_perm.
    + apply Permutation_in, Permutation_sym, sort_values_perm.
  - apply (sort_values_sorted leb).
    + intros a b. apply Timestamp_leb_total.
    + intros a b c. apply Timestamp_leb_trans.
Qed.

(** C5 (amended) at a store configured for April 2018. *)
Lemma delay_logs_fixed_window_witness :
  gtfs_dir Fixture.env "Data/gtfs-2018" = Fixture.gtfs_files /\
  delay_dir Fixture.env "Data/L101 and L102 - 2018" = Fixture.delay_files /\
  exists sim,
    __init__ Fixture.env "Data/gtfs-2018" 20180401 20180408 "LE" = Return sim /\
    Permutation (delay_logs_clean_df sim)
      (filter (delay_log_filter "LE")
         (merge_data [L101.mk "907" (mkts (mkdate 2018 3 5) 27720) "LE"]
            [L102.mk "907" (Some "MECH")]
            [DelayCodeInfo.mk (Some "MECH") (Some "Mechanical failure")])) /\
    (forall r, In r (delay_logs_clean_df sim) <->
       In r (merge_data [L101.mk "907" (mkts (mkdate 2018 3 5) 27720) "LE"]
               [L102.mk "907" (Some "MECH")]
               [DelayCodeInfo.mk (Some "MECH") (Some "Mechanical failure")]) /\
       date_leb (mkdate 2018 3 1) (dt_date (DelayLog.OperationDateTime r)) = true /\
       date_leb (dt_date (DelayLog.OperationDateTime r)) (mkdate 2018 3 8) = true /\
       DelayLog.CorridorId r = "LE" /\
       DelayLog.DelayCode r <> None) /\
    StronglySorted
      (fun a b => Timestamp_leb (DelayLog.OperationDateTime a)
                                (DelayLog.OperationDateTime b) = true)
      (delay_logs_clean_df sim).
Proof.
  split; [reflexivity|]. split; [reflexivity|].
  apply (delay_logs_fixed_window Fixture.env "Data/gtfs-2018" 20180401 20180408 "LE"
           [CalendarDate.mk 20180301] [Trip.mk "20180301-LW-100" 20180301 "01180-LW"]
           [StopTime.mk "20180301-LW-100" "UN" 1 (Some "06:00:00") (Some "06:00:00")
              (Some "Kitchener GO")]
           Fixture.stop_table);
    reflexivity.
Defined.

(** * Further properties *)

(** ** Distance *)

Section Distance.
Local Open Scope R_scope.

Lemma haversine_a_sym (lat1 lon1 lat2 lon2 : R) :
  Utils.haversine_a lat2 lon2 lat1 lon1 = Utils.haversine_a lat1 lon1 lat2 lon2.
Proof.
  unfold Utils.haversine_a. cbv zeta. rewrite !sin_half_sqr.
  replace (Utils.radians (lat1 - lat2)) with (- Utils.radians (lat2 - lat1))
    by (unfold Utils.radians; lra).
  replace (Utils.radians (lon1 - lon2)) with (- Utils.radians (lon2 - lon1))
    by (unfold Utils.radians; lra).
  rewrite !cos_neg. ring.
Qed.

(** X2. The distance is symmetric in its two points. *)
Theorem calculate_distance_sym (lat1 lon1 lat2 lon2 : R) :
  Utils.calculate_distance lat2 lon2 lat1 lon1
    = Utils.calculate_distance lat1 lon1 lat2 lon2.
Proof.
  unfold Utils.calculate_distance. cbv zeta. rewrite haversine_a_sym. reflexivity.
Qed.

(** X3. The distance of a point to itself is 0. *)
Theorem calculate_distance_same_point (lat lon : R) :
  Utils.calculate_distance lat lon lat lon = Return 0.
Proof.
  assert (Ha : Utils.haversine_a lat lon lat lon = 0).
  { unfold Utils.haversine_a. cbv zeta. rewrite !sin_half_sqr.
    replace (Utils.radians (lat - lat)) with 0 by (unfold Utils.radians; lra).
    replace (Utils.radians (lon - lon)) with 0 by (unfold Utils.radians; lra).
    rewrite cos_0. lra. }
  unfold Utils.calculate_distance. cbv zeta. rewrite Ha.
  rewrite math_sqrt_nonneg by lra. simpl.
  rewrite math_sqrt_nonneg by lra. simpl.
  rewrite sqrt_0. replace (1 - 0) with 1 by lra. rewrite sqrt_1.
  unfold Utils.atan2. destruct (Rlt_dec 0 1); [|lra].
  replace (0 / 1) with 0 by lra. rewrite atan_0. f_equal. lra.
Qed.

End Distance.

(** ** Cosine similarity *)

Section Cosine.
Local Open Scope R_scope.

Lemma dot_comm (u v : list R) : Utils.dot u v = Utils.dot v u.
Proof.
  revert v. induction u as [|x u IH]; intros [|y v]; simpl; try reflexivity.
  rewrite IH. ring.
Qed.

(** X4. The similarity of two vectors does not depend on their order, be it
    a number or an error. *)
Theorem calculate_cosine_similarity_sym (vec1 vec2 : list R) :
  Utils.calculate_cosine_similarity vec2 vec1
    = Utils.calculate_cosine_similarity vec1 vec2.
Proof.
  unfold Utils.calculate_cosine_similarity, Utils.cosine_similarity. cbv zeta.
  destruct (Nat.eqb_spec (List.length vec1) 0) as [H1|H1];
    destruct (Nat.eqb_spec (List.length vec2) 0) as [H2|H2]; try reflexivity.
  rewrite (Nat.eqb_sym (List.length vec2) (List.length vec1)).
  destruct (List.length vec1 =? List.length vec2)%nat; simpl; [|reflexivity].
  f_equal. apply dot_comm.
Qed.

End Cosine.

(** ** Stop lookup *)

Lemma iloc_0_filter {A B : Type} (p : A -> bool) (g : A -> B) (l : list A) :
  Pandas.iloc (map g (filter p l)) 0 =
  match find p l with
  | Some x => Return (g x)
  | None => Raise IndexError
  end.
Proof.
  induction l as [|x t IH]; simpl; [reflexivity|].
  destruct (p x); [reflexivity | exact IH].
Qed.

Lemma exact_name_lookup (self : GoAPISimulator) (stop_name : option string)
    (lat long : option R) :
  get_stop_id self stop_name lat long None =
  match find (fun s => name_matches (Stop.stop_name s) stop_name) (stops self) with
  | Some s => Return (Some (Stop.stop_id s))
  | None => Raise (ValueError "Stop not found using method: None")
  end.
Proof.
  unfold get_stop_id. rewrite iloc_0_filter.
  destruct (find _ _); reflexivity.
Qed.

(** X7. Without a method, the lookup returns the id of the first stop in
    table order whose name equals the query, and raises the stop-not-found
    error when no stop has that name. *)
Theorem get_stop_id_exact_name (self : GoAPISimulator) (stop_name : option string)
    (lat long : option R) :
  get_stop_id self stop_name lat long None =
  match find (fun s => name_matches (Stop.stop_name s) stop_name) (stops self) with
  | Some s => Return (Some (Stop.stop_id s))
  | None => Raise (ValueError "Stop not found using method: None")
  end.
Proof.
  unfold get_stop_id. rewrite iloc_0_filter.
  destruct (find _ _) as [s|]; reflexivity.
Qed.

(** X8. Without a method, the lookup fails exactly when no stop of the table
    carries the queried name; a stop without a name never matches. *)
Theorem get_stop_id_exact_name_not_found (self : GoAPISimulator) (name : string)
    (lat long : option R) :
  get_stop_id self (Some name) lat long None
    = Raise (ValueError "Stop not found using method: None")
  <-> forall s, In s (stops self) -> Stop.stop_name s <> Some name.
Proof.
  rewrite exact_name_lookup. split.
  - destruct (find _ _) as [s|] eqn:Hf; [discriminate|]. intros _ s Hs Hname.
    pose proof (find_none _ _ Hf s Hs) as Hno. cbv beta in Hno.
    rewrite Hname in Hno. simpl in Hno. rewrite String.eqb_refl in Hno. discriminate.
  - intros Hall. destruct (find _ _) as [s|] eqn:Hf; [|reflexivity].
    apply find_some in Hf. destruct Hf as [Hs Hm]. exfalso. apply (Hall s Hs).
    unfold name_matches in Hm. destruct (Stop.stop_name s) as [n|]; [|discriminate].
    apply String.eqb_eq in Hm. congruence.
Qed.

Lemma bind_Return {A B : Type} (c : outcome A) (k : A -> outcome B) (b : B) :
  bind c k = Return b -> exists a, c = Return a /\ k a = Return b.
Proof.
  destruct c as [a|e]; simpl; [intros H; exists a; split; [reflexivity | exact H]|].
  discriminate.
Qed.

Lemma except_IndexError_Return {A : Type} (body handler : outcome A) (v : A) :
  except_IndexError body handler = Return v -> body = Return v \/ handler = Return v.
Proof.
  destruct body as [a|[msg| |file]]; simpl; intros H; auto.
Qed.

Lemma iloc_In {A : Type} (df : list A) (i : nat) (row : A) :
  Pandas.iloc df i = Return row -> In row df.
Proof.
  unfold Pandas.iloc. destruct (nth_error df i) eqn:Hn; [|discriminate].
  intros H. injection H as <-. eapply nth_error_In. exact Hn.
Qed.

(** X9. Whatever the arguments, a stop id that the lookup returns is the id
    of a stop of the table. *)
Theorem get_stop_id_returns_table_id (self : GoAPISimulator) (stop_name : option string)
    (lat long : option R) (method : option string) (id : string) :
  get_stop_id self stop_name lat long method = Return (Some id) ->
  exists s, In s (stops self) /\ Stop.stop_id s = id.
Proof.
  destruct method as [m|].
  - unfold get_stop_id. intros H. apply except_IndexError_Return in H.
    destruct H as [H|H]; [|discriminate].
    destruct (String.eqb m "embedding_search").
    + destruct stop_name as [name|]; [|discriminate].
      cbv zeta in H.
      apply bind_Return in H. destruct H as (sims & _ & H).
      apply bind_Return in H. destruct H as (i & _ & H).
      apply bind_Return in H. destruct H as (row & Hrow & H).
      injection H as <-. exists row. split; [eapply iloc_In; exact Hrow | reflexivity].
    + destruct (String.eqb m "geo_search"); [|discriminate].
      destruct lat as [la|]; [|discriminate]. destruct long as [lo|]; [|discriminate].
      apply bind_Return in H. destruct H as (ds & _ & H).
      apply bind_Return in H. destruct H as (i & _ & H).
      apply bind_Return in H. destruct H as (row & Hrow & H).
      injection H as <-. exists row. split; [eapply iloc_In; exact Hrow | reflexivity].
  - rewrite exact_name_lookup.
    destruct (find _ _) as [s|] eqn:Hf; [|discriminate].
    intros H. injection H as <-. apply find_some in Hf.
    exists s. split; [apply Hf | reflexivity].
Qed.

Lemma get_stop_id_returns_table_id_witness :
  get_stop_id (Fixture.store []) (Some "Oakville GO") None None None = Return (Some "OA") /\
  exists s, In s (stops (Fixture.store [])) /\ Stop.stop_id s = "OA".
Proof.
  assert (H : get_stop_id (Fixture.store []) (Some "Oakville GO") None None None
              = Return (Some "OA")) by reflexivity.
  split; [exact H|].
  exact (get_stop_id_returns_table_id (Fixture.store []) (Some "Oakville GO") None None
           None "OA" H).
Defined.

Lemma bind_not_None {A : Type} (c : outcome A) (k : A -> outcome (option string)) :
  (forall a, k a <> Return None) -> bind c k <> Return None.
Proof.
  intros Hk. destruct c as [a|e]; simpl; [apply Hk | discriminate].
Qed.

(** X10. The lookup returns Python's [None] exactly when the method is a
    string other than 'embedding_search' and 'geo_search'. *)
Theorem get_stop_id_returns_None_iff (self : GoAPISimulator) (stop_name : option string)
    (lat long : option R) (method : option string) :
  get_stop_id self stop_name lat long method = Return None
  <-> exists m, method = Some m /\ m <> "embedding_search" /\ m <> "geo_search".
Proof.
  split.
  - destruct method as [m|].
    + intros H. exists m. split; [reflexivity|].
      unfold get_stop_id in H. apply except_IndexError_Return in H.
      destruct H as [H|H]; [|discriminate].
      destruct (String.eqb m "embedding_search") eqn:E1.
      * exfalso. destruct stop_name as [name|]; [|discriminate].
        revert H. cbv zeta. repeat (apply bind_not_None; intros ?). discriminate.
      * apply String.eqb_neq in E1. split; [exact E1|].
        destruct (String.eqb m "geo_search") eqn:E2; [|apply String.eqb_neq; exact E2].
        exfalso. destruct lat as [la|]; [|discriminate].
        destruct long as [lo|]; [|discriminate].
        revert H. repeat (apply bind_not_None; intros ?). discriminate.
    + rewrite exact_name_lookup. destruct (find _ _); discriminate.
  - intros (m & -> & H1 & H2). apply get_stop_id_unknown_method; assumption.
Qed.

Lemma apply_raises {A B : Type} (f : A -> outcome B) (l : list A) (x : A) (e : exn) :
  In x l -> f x = Raise e -> exists e', apply f l = Raise e'.
Proof.
  induction l as [|y t IH]; simpl; [contradiction|].
  intros [->|Hx] He.
  - rewrite He. simpl. eexists. reflexivity.
  - destruct (f y) as [b|e1]; simpl; [|eexists; reflexivity].
    destruct (IH Hx He) as [e' ->]. simpl. eexists. reflexivity.
Qed.

Lemma cosine_mismatch_raises (u v : list R) :
  List.length v <> List.length u ->
  exists e, Utils.calculate_cosine_similarity u v = Raise e.
Proof.
  intros Hne. unfold Utils.calculate_cosine_similarity, Utils.cosine_similarity.
  cbv zeta.
  destruct (List.length u =? 0)%nat; [eexists; reflexivity|].
  destruct (List.length v =? 0)%nat; [eexists; reflexivity|].
  destruct (Nat.eqb_spec (List.length u) (List.length v)); [congruence|].
  simpl. eexists. reflexivity.
Qed.

(** X11. One stop whose stored embedding has not the width of the query
    embedding makes the embedding search fail with a [ValueError], whatever
    the other stops are. *)
Theorem embedding_search_malformed_row (self : GoAPISimulator) (name : string)
    (lat long : option R) (s : Stop.t) :
  In s (stops self) ->
  List.length (Stop.embedding s) <> List.length (embedding_model self name) ->
  exists msg,
    get_stop_id self (Some name) lat long (Some "embedding_search")
      = Raise (ValueError msg).
Proof.
  intros Hs Hlen.
  destruct (cosine_mismatch_raises (embedding_model self name) (Stop.embedding s) Hlen)
    as [e He].
  destruct (apply_raises
              (fun x => Utils.calculate_cosine_similarity (embedding_model self name) x)
              (map Stop.embedding (stops self)) (Stop.embedding s) e
              (in_map _ _ _ Hs) He) as [e' He'].
  pose proof He' as Hraise. apply apply_raise in Hraise.
  destruct Hraise as (x & _ & Hx).
  apply calculate_cosine_similarity_raise in Hx.
  unfold get_stop_id. simpl. rewrite He'. simpl.
  destruct Hx as [-> | ->]; simpl; eexists; reflexivity.
Qed.

Lemma embedding_search_malformed_row_witness :
  In (Stop.mk "XX" (Some "Exhibition GO") 0 0 [1%R])
     (stops (mksim [Fixture.union_station; Stop.mk "XX" (Some "Exhibition GO") 0 0 [1%R]]
                   Fixture.constant_model [] [])) /\
  List.length (Stop.embedding (Stop.mk "XX" (Some "Exhibition GO") 0 0 [1%R]))
    <> List.length (Fixture.constant_model "Union") /\
  exists msg,
    get_stop_id (mksim [Fixture.union_station; Stop.mk "XX" (Some "Exhibition GO") 0 0 [1%R]]
                       Fixture.constant_model [] [])
      (Some "Union") None None (Some "embedding_search") = Raise (ValueError msg).
Proof.
  assert (H1 : In (Stop.mk "XX" (Some "Exhibition GO") 0 0 [1%R])
     (stops (mksim [Fixture.union_station; Stop.mk "XX" (Some "Exhibition GO") 0 0 [1%R]]
                   Fixture.constant_model [] []))) by (right; left; reflexivity).
  assert (H2 : List.length (Stop.embedding (Stop.mk "XX" (Some "Exhibition GO") 0 0 [1%R]))
    <> List.length (Fixture.constant_model "Union")) by discriminate.
  split; [exact H1|]. split; [exact H2|].
  exact (embedding_search_malformed_row _ "Union" None None _ H1 H2).
Defined.

(** ** Trip assembly, continued *)

Lemma merge_In {A B K : Type} (eqb : K -> K -> bool) (kl : A -> K) (kr : B -> K)
    (left : list A) (right : list B) (l : A) (r : B) :
  In (l, r) (Pandas.merge eqb kl kr left right)
  <-> In l left /\ In r right /\ eqb (kl l) (kr r) = true.
Proof.
  unfold Pandas.merge. rewrite in_flat_map. split.
  - intros (l' & Hl' & Hin). apply in_map_iff in Hin.
    destruct Hin as (r' & Heq & Hr'). injection Heq as -> ->.
    apply filter_In in Hr'. tauto.
  - intros (Hl & Hr & He). exists l. split; [exact Hl|].
    apply in_map, filter_In. tauto.
Qed.

Lemma trip_data_In (self : GoAPISimulator) (key : string) (r : StopTime.t) (s : Stop.t) :
  In (r, s) (trip_data_of self key)
  <-> In r (stop_time_clean self) /\ StopTime.trip_id r = key /\
      In s (stops self) /\ StopTime.stop_id r = Stop.stop_id s.
Proof.
  unfold trip_data_of. rewrite merge_In, filter_In, !String.eqb_eq. tauto.
Qed.

Lemma get_trip_info_cases (self : GoAPISimulator) (trip_id date corridor : string) :
  (trip_data_of self (full_trip_id trip_id date corridor) = [] /\
   get_trip_info self trip_id date corridor
     = Raise (ValueError ("Trip ID " ++ full_trip_id trip_id date corridor
                            ++ " not found.")%string)) \/
  (trip_data_of self (full_trip_id trip_id date corridor) <> [] /\
   exists info, get_trip_info self trip_id date corridor = Return info).
Proof.
  destruct (trip_data_of self (full_trip_id trip_id date corridor)) as [|r0 rest] eqn:Htd.
  - left. split; [reflexivity|].
    unfold get_trip_info. cbv zeta. fold (full_trip_id trip_id date corridor).
    rewrite Htd. reflexivity.
  - right. split; [discriminate|].
    destruct (get_trip_info_returns _ _ _ _ _ _ Htd) as (rmin & _ & _ & ->).
    eexists. reflexivity.
Qed.

(** X12. A trip is reported as not found exactly when none of its stop-time
    rows refers to a stop of the stop table; rows that refer to an unknown
    stop are dropped without an error. *)
Theorem get_trip_info_not_found_iff (self : GoAPISimulator)
    (trip_id date corridor : string) :
  get_trip_info self trip_id date corridor
    = Raise (ValueError ("Trip ID " ++ full_trip_id trip_id date corridor
                           ++ " not found.")%string)
  <-> forall r s, In r (stop_time_clean self) -> In s (stops self) ->
        StopTime.trip_id r = full_trip_id trip_id date corridor ->
        StopTime.stop_id r <> Stop.stop_id s.
Proof.
  destruct (get_trip_info_cases self trip_id date corridor)
    as [[Hnil Hraise]|[Hne [info Hret]]].
  - rewrite Hraise. split; [|reflexivity]. intros _ r s Hr Hs Hkey Hid.
    assert (Hin : In (r, s) (trip_data_of self (full_trip_id trip_id date corridor)))
      by (apply trip_data_In; tauto).
    rewrite Hnil in Hin. exact Hin.
  - rewrite Hret. split; [discriminate|]. intros Hall. exfalso. apply Hne.
    destruct (trip_data_of self (full_trip_id trip_id date corridor)) as [|[r s] rest] eqn:Htd;
      [reflexivity|].
    assert (Hin : In (r, s) (trip_data_of self (full_trip_id trip_id date corridor)))
      by (rewrite Htd; left; reflexivity).
    apply trip_data_In in Hin. destruct Hin as (Hr & Hkey & Hs & Hid).
    exfalso. exact (Hall r s Hr Hs Hkey Hid).
Qed.

(** X14. For a trip that has rows, the result carries the composite key
    date-corridor-number as trip id, and its headsign is that of the first
    row, in row order, among the rows with the smallest sequence number. *)
Theorem get_trip_info_headsign (self : GoAPISimulator) (trip_id date corridor : string) :
  trip_data_of self (full_trip_id trip_id date corridor) <> [] ->
  exists info rmin,
    get_trip_info self trip_id date corridor = Return info /\
    TripInfo.trip_id info = (date ++ "-" ++ corridor ++ "-" ++ trip_id)%string /\
    find (fun r => row_stop_sequence r =? row_stop_sequence rmin)
         (trip_data_of self (full_trip_id trip_id date corridor)) = Some rmin /\
    (forall r, In r (trip_data_of self (full_trip_id trip_id date corridor)) ->
       row_stop_sequence rmin <= row_stop_sequence r) /\
    TripInfo.stop_headsign info = StopTime.stop_headsign (fst rmin).
Proof.
  intros Hne.
  destruct (trip_data_of self (full_trip_id trip_id date corridor)) as [|r0 rest] eqn:Htd;
    [congruence|].
  destruct (get_trip_info_returns _ _ _ _ _ _ Htd) as (rmin & Hfind & Hmin & Hret).
  eexists. exists rmin. split; [exact Hret|]. repeat split; assumption.
Qed.

Lemma get_trip_info_headsign_witness :
  trip_data_of (Fixture.store Fixture.unsorted_trip) (full_trip_id "907" "20180301" "LE")
    <> [] /\
  exists info rmin,
    get_trip_info (Fixture.store Fixture.unsorted_trip) "907" "20180301" "LE"
      = Return info /\
    TripInfo.trip_id info = "20180301-LE-907" /\
    (forall r, In r (trip_data_of (Fixture.store Fixture.unsorted_trip)
                       (full_trip_id "907" "20180301" "LE")) ->
       row_stop_sequence rmin <= row_stop_sequence r) /\
    TripInfo.stop_headsign info = StopTime.stop_headsign (fst rmin).
Proof.
  assert (Hne : trip_data_of (Fixture.store Fixture.unsorted_trip)
                  (full_trip_id "907" "20180301" "LE") <> []) by discriminate.
  split; [exact Hne|].
  destruct (get_trip_info_headsign (Fixture.store Fixture.unsorted_trip)
              "907" "20180301" "LE" Hne) as (info & rmin & Hret & Hid & _ & Hmin & Hh).
  exists info, rmin. repeat split; assumption.
Defined.

Lemma last_In {A : Type} (rest : list A) (r0 : A) : In (last rest r0) (r0 :: rest).
Proof.
  revert r0. induction rest as [|r1 rest IH]; intros r0; [left; reflexivity|].
  right. destruct rest as [|a rest']; [left; reflexivity|].
  change (In (last (a :: rest') r0) (r1 :: a :: rest')).
  rewrite (last_cons_default rest' a r0 r1). apply IH.
Qed.

Lemma sorted_rows_bounds (r0 : StopTime.t * Stop.t) (rest : list (StopTime.t * Stop.t)) :
  Sorted (fun a b => row_stop_sequence a <= row_stop_sequence b) (r0 :: rest) ->
  forall r, In r (r0 :: rest) ->
    row_stop_sequence r0 <= row_stop_sequence r <= row_stop_sequence (last rest r0).
Proof.
  intros Hs. apply Sorted_StronglySorted in Hs;
    [|intros a b c Hab Hbc; exact (Z.le_trans _ _ _ Hab Hbc)].
  revert r0 Hs. induction rest as [|r1 rest IH]; intros r0 Hs r Hr.
  - destruct Hr as [<-|[]]. simpl. lia.
  - inversion Hs as [|a l Hs' Hall]; subst.
    rewrite Forall_forall in Hall.
    assert (Hlast : row_stop_sequence r0 <= row_stop_sequence (last rest r1)).
    { specialize (IH r1 Hs' r1 (or_introl eq_refl)).
      specialize (Hall r1 (or_introl eq_refl)). lia. }
    change (last (r1 :: rest) r0) with (match rest with [] => r1 | _ => last rest r0 end).
    assert (Heq : match rest with [] => r1 | _ => last rest r0 end = last rest r1).
    { destruct rest as [|a rest']; [reflexivity|].
      change (last (a :: rest') r0 = last (a :: rest') r1). apply last_cons_default. }
    rewrite Heq.
    destruct Hr as [<-|Hr]; [lia|].
    specialize (IH r1 Hs' r Hr). specialize (Hall r Hr). lia.
Qed.

(** X15. When the joined rows of a trip are stored in ascending order of the
    sequence number, origin and departure time come from a row with the
    smallest sequence number, and destination and arrival time from a row
    with the largest one. *)
Theorem get_trip_info_sorted_rows (self : GoAPISimulator) (trip_id date corridor : string) :
  trip_data_of self (full_trip_id trip_id date corridor) <> [] ->
  Sorted (fun a b => row_stop_sequence a <= row_stop_sequence b)
         (trip_data_of self (full_trip_id trip_id date corridor)) ->
  exists info first final,
    get_trip_info self trip_id date corridor = Return info /\
    In first (trip_data_of self (full_trip_id trip_id date corridor)) /\
    In final (trip_data_of self (full_trip_id trip_id date corridor)) /\
    (forall r, In r (trip_data_of self (full_trip_id trip_id date corridor)) ->
       row_stop_sequence first <= row_stop_sequence r <= row_stop_sequence final) /\
    TripInfo.origin info = Stop.stop_name (snd first) /\
    TripInfo.departure_time info = StopTime.departure_time (fst first) /\
    TripInfo.destination info = Stop.stop_name (snd final) /\
    TripInfo.arrival_time info = StopTime.arrival_time (fst final).
Proof.
  intros Hne Hsorted.
  destruct (trip_data_of self (full_trip_id trip_id date corridor)) as [|r0 rest] eqn:Htd;
    [congruence|].
  destruct (get_trip_info_returns _ _ _ _ _ _ Htd) as (rmin & _ & _ & Hret).
  eexists. exists r0, (last rest r0). split; [exact Hret|].
  split; [left; reflexivity|].
  split; [apply last_In|].
  split; [apply sorted_rows_bounds; exact Hsorted|].
  repeat split; reflexivity.
Qed.

Lemma get_trip_info_sorted_rows_witness :
  trip_data_of (Fixture.store Fixture.trip_without_headsign)
    (full_trip_id "907" "20180301" "LE") <> [] /\
  Sorted (fun a b => row_stop_sequence a <= row_stop_sequence b)
         (trip_data_of (Fixture.store Fixture.trip_without_headsign)
            (full_trip_id "907" "20180301" "LE")) /\
  exists info first final,
    get_trip_info (Fixture.store Fixture.trip_without_headsign) "907" "20180301" "LE"
      = Return info /\
    TripInfo.origin info = Stop.stop_name (snd first) /\
    TripInfo.destination info = Stop.stop_name (snd final) /\
    forall r, In r (trip_data_of (Fixture.store Fixture.trip_without_headsign)
                      (full_trip_id "907" "20180301" "LE")) ->
      row_stop_sequence first <= row_stop_sequence r <= row_stop_sequence final.
Proof.
  assert (Hne : trip_data_of (Fixture.store Fixture.trip_without_headsign)
                  (full_trip_id "907" "20180301" "LE") <> []) by discriminate.
  assert (Hs : Sorted (fun a b => row_stop_sequence a <= row_stop_sequence b)
         (trip_data_of (Fixture.store Fixture.trip_without_headsign)
            (full_trip_id "907" "20180301" "LE"))).
  { repeat constructor. unfold row_stop_sequence. simpl. lia. }
  split; [exact Hne|]. split; [exact Hs|].
  destruct (get_trip_info_sorted_rows (Fixture.store Fixture.trip_without_headsign)
              "907" "20180301" "LE" Hne Hs)
    as (info & first & final & Hret & _ & _ & Hb & Ho & _ & Hd & _).
  exists info, first, final. repeat split; try assumption; apply Hb; assumption.
Defined.

Lemma first_valid_In {A : Type} (col : list (option A)) (v : A) :
  Pandas.first_valid col = Some v -> In (Some v) col.
Proof.
  induction col as [|[x|] t IH]; simpl; [discriminate | |].
  - intros H. left. exact H.
  - intros H. right. exact (IH H).
Qed.

(** X16. Every stop name listed in the stop sequence of an assembled trip
    is the name of a stop of the table, so looking that name up without a
    method returns the id of a stop with that name. *)
Theorem trip_stop_names_resolve (self : GoAPISimulator) (trip_id date corridor : string)
    (info : TripInfo.t) (e : TripInfo.stop_entry) (name : string) (lat long : option R) :
  get_trip_info self trip_id date corridor = Return info ->
  In e (TripInfo.stop_sequence info) ->
  TripInfo.entry_stop_name e = Some name ->
  exists s,
    In s (stops self) /\ Stop.stop_name s = Some name /\
    get_stop_id self (Some name) lat long None = Return (Some (Stop.stop_id s)).
Proof.
  intros Hret He Hname.
  destruct (trip_data_of self (full_trip_id trip_id date corridor)) as [|r0 rest] eqn:Htd.
  - destruct (get_trip_info_cases self trip_id date corridor) as [[_ H]|[H _]];
      congruence.
  - destruct (get_trip_info_returns _ _ _ _ _ _ Htd) as (rmin & _ & _ & Hret').
    rewrite Hret' in Hret. injection Hret as <-.
    cbn [TripInfo.stop_sequence] in He.
    unfold grouped_entries in He. apply in_map_iff in He.
    destruct He as (k & <- & _). cbn [TripInfo.entry_stop_name] in Hname.
    apply first_valid_In, in_map_iff in Hname.
    destruct Hname as ([r s0] & Hn & Hin). apply filter_In in Hin.
    destruct Hin as [Hin _]. rewrite <- Htd in Hin. apply trip_data_In in Hin.
    destruct Hin as (_ & _ & Hs0 & _). simpl in Hn.
    rewrite exact_name_lookup.
    destruct (find (fun s => name_matches (Stop.stop_name s) (Some name)) (stops self))
      as [s|] eqn:Hf.
    + apply find_some in Hf. destruct Hf as [Hs Hm].
      exists s. split; [exact Hs|]. split; [|reflexivity].
      unfold name_matches in Hm. destruct (Stop.stop_name s); [|discriminate].
      apply String.eqb_eq in Hm. congruence.
    + pose proof (find_none _ _ Hf s0 Hs0) as Hno. cbv beta in Hno.
      rewrite Hn in Hno. simpl in Hno. rewrite String.eqb_refl in Hno. discriminate.
Qed.

Lemma trip_stop_names_resolve_witness :
  exists info e,
    get_trip_info (Fixture.store Fixture.unsorted_trip) "907" "20180301" "LE"
      = Return info /\
    In e (TripInfo.stop_sequence info) /\
    TripInfo.entry_stop_name e = Some "Oshawa GO" /\
    exists s,
      In s (stops (Fixture.store Fixture.unsorted_trip)) /\
      Stop.stop_name s = Some "Oshawa GO" /\
      get_stop_id (Fixture.store Fixture.unsorted_trip) (Some "Oshawa GO") None None None
        = Return (Some (Stop.stop_id s)).
Proof.
  assert (Hex : exists info e,
            get_trip_info (Fixture.store Fixture.unsorted_trip) "907" "20180301" "LE"
              = Return info /\
            In e (TripInfo.stop_sequence info) /\
            TripInfo.entry_stop_name e = Some "Oshawa GO").
  { do 2 eexists. split; [reflexivity|]. split; [left; reflexivity | reflexivity]. }
  destruct Hex as (info & e & Hret & He & Hn).
  exists info, e. split; [exact Hret|]. split; [exact He|]. split; [exact Hn|].
  exact (trip_stop_names_resolve _ _ _ _ info e "Oshawa GO" None None Hret He Hn).
Defined.

(** ** Initialization, continued *)

(** X17. Initialization completes only if the four schedule files of the
    data directory and the three delay-log files of the fixed folder
    'Data/L101 and L102 - 2018' exist, whatever the data directory is. *)
Theorem init_completes_only_if_files_exist (env : Env) (data_dir : string)
    (start_date end_date : Z) (corridor : string) (sim : GoAPISimulator) :
  __init__ env data_dir start_date end_date corridor = Return sim ->
  calendar_dates_txt (gtfs_dir env data_dir) <> None /\
  trips_txt (gtfs_dir env data_dir) <> None /\
  stop_times_txt (gtfs_dir env data_dir) <> None /\
  stops_csv (gtfs_dir env data_dir) <> None /\
  L101_csv (delay_dir env "Data/L101 and L102 - 2018") <> None /\
  L102_csv (delay_dir env "Data/L101 and L102 - 2018") <> None /\
  DelayCodeInfo_csv (delay_dir env "Data/L101 and L102 - 2018") <> None.
Proof.
  unfold __init__, read_from_file.
  destruct (gtfs_dir env data_dir) as [[c|] [t|] [st|] [s|]]; simpl; try discriminate.
  destruct (delay_dir env "Data/L101 and L102 - 2018") as [[l1|] [l2|] [dc|]]; simpl;
    try discriminate.
  intros _. repeat split; discriminate.
Qed.

Lemma init_completes_only_if_files_exist_witness :
  exists sim,
    __init__ Fixture.env "Data/gtfs-2018" 20180301 20180308 "LE" = Return sim /\
    calendar_dates_txt (gtfs_dir Fixture.env "Data/gtfs-2018") <> None /\
    trips_txt (gtfs_dir Fixture.env "Data/gtfs-2018") <> None /\
    stop_times_txt (gtfs_dir Fixture.env "Data/gtfs-2018") <> None /\
    stops_csv (gtfs_dir Fixture.env "Data/gtfs-2018") <> None /\
    L101_csv (delay_dir Fixture.env "Data/L101 and L102 - 2018") <> None /\
    L102_csv (delay_dir Fixture.env "Data/L101 and L102 - 2018") <> None /\
    DelayCodeInfo_csv (delay_dir Fixture.env "Data/L101 and L102 - 2018") <> None.
Proof.
  assert (Hex : exists sim,
            __init__ Fixture.env "Data/gtfs-2018" 20180301 20180308 "LE" = Return sim)
    by (eexists; reflexivity).
  destruct Hex as [sim Hinit]. exists sim. split; [exact Hinit|].
  exact (init_completes_only_if_files_exist Fixture.env "Data/gtfs-2018" 20180301 20180308
           "LE" sim Hinit).
Defined.

Lemma isin_str_In (x : string) (l : list string) : Pandas.isin_str x l = true <-> In x l.
Proof.
  unfold Pandas.isin_str. rewrite existsb_exists. split.
  - intros (y & Hy & He). apply String.eqb_eq in He. congruence.
  - intros H. exists x. split; [exact H | apply String.eqb_refl].
Qed.

Lemma isin_Z_In (x : Z) (l : list Z) : Pandas.isin_Z x l = true <-> In x l.
Proof.
  unfold Pandas.isin_Z. rewrite existsb_exists. split.
  - intros (y & Hy & He). apply Z.eqb_eq in He. congruence.
  - intros H. exists x. split; [exact H | apply Z.eqb_refl].
Qed.

Lemma unique_In (l : list string) (x : string) : In x (Pandas.unique l) <-> In x l.
Proof.
  induction l as [|y t IH]; simpl; [reflexivity|].
  rewrite filter_In, IH, negb_true_iff, String.eqb_neq.
  destruct (string_dec y x) as [->|Hne]; [tauto|].
  split; [tauto|]. intros [H|H]; [contradiction|]. right. split; [exact H|].
  congruence.
Qed.

Lemma substring_all (s : string) : substring 0 (String.length s) s = s.
Proof. induction s as [|c s IH]; simpl; [reflexivity | rewrite IH; reflexivity]. Qed.

Lemma substring_skip (p s : string) (n : nat) :
  substring (String.length p) n (p ++ s)%string = substring 0 n s.
Proof. induction p as [|c p IH]; simpl; [reflexivity | exact IH]. Qed.

Lemma string_split_at (s : string) (n : nat) :
  (n <= String.length s)%nat ->
  s = (substring 0 n s ++ substring n (String.length s - n) s)%string.
Proof.
  revert n. induction s as [|c s IH]; intros n Hn.
  - simpl in Hn. replace n with 0%nat by lia. reflexivity.
  - destruct n as [|n].
    + simpl. rewrite substring_all. reflexivity.
    + simpl in Hn. simpl. f_equal. apply IH. lia.
Qed.

Lemma length_append (p s : string) :
  String.length (p ++ s)%string = (String.length p + String.length s)%nat.
Proof. induction p as [|c p IH]; simpl; [reflexivity | rewrite IH; reflexivity]. Qed.

Lemma endswith_iff (s suffix : string) :
  Pandas.endswith s suffix = true <-> has_suffix s suffix.
Proof.
  unfold Pandas.endswith, has_suffix. rewrite andb_true_iff, Nat.leb_le, String.eqb_eq.
  split.
  - intros [Hle Hsub].
    exists (substring 0 (String.length s - String.length suffix) s).
    pose proof (string_split_at s (String.length s - String.length suffix)%nat) as Hsplit.
    replace (String.length s - (String.length s - String.length suffix))%nat
      with (String.length suffix) in Hsplit by lia.
    rewrite Hsub in Hsplit. apply Hsplit. lia.
  - intros [p ->]. rewrite length_append. split; [lia|].
    replace (String.length p + String.length suffix - String.length suffix)%nat
      with (String.length p) by lia.
    rewrite substring_skip. apply substring_all.
Qed.

(** X18. After an initialization whose files load, the store keeps the stop
    table as loaded, and its stop-time rows are exactly the loaded stop-time
    rows of the trips whose service id lies between the start and the end
    date and occurs in the calendar, and whose route id ends with the
    corridor. *)
Theorem init_stop_time_clean (env : Env) (data_dir : string)
    (start_date end_date : Z) (corridor : string)
    (calendar_dates : list CalendarDate.t) (trips : list Trip.t)
    (stop_times : list StopTime.t) (stop_rows : list Stop.t) (l101 : list L101.t)
    (l102 : list L102.t) (info : list DelayCodeInfo.t) :
  gtfs_dir env data_dir
    = mkgtfs (Some calendar_dates) (Some trips) (Some stop_times) (Some stop_rows) ->
  delay_dir env "Data/L101 and L102 - 2018" = mkdelay (Some l101) (Some l102) (Some info) ->
  exists sim,
    __init__ env data_dir start_date end_date corridor = Return sim /\
    stops sim = stop_rows /\
    forall r, In r (stop_time_clean sim) <->
      In r stop_times /\
      exists t, In t trips /\ Trip.trip_id t = StopTime.trip_id r /\
                start_date <= Trip.service_id t <= end_date /\
                (exists c, In c calendar_dates /\
                           CalendarDate.service_id c = Trip.service_id t) /\
                has_suffix (Trip.route_id t) corridor.
Proof.
  intros Hg Hd. eexists. split; [exact (init_returns _ _ _ _ _ _ _ _ _ _ _ _ Hg Hd)|].
  split; [reflexivity|]. intros r. cbn [stop_time_clean].
  rewrite filter_In, isin_str_In, unique_In, in_map_iff.
  unfold valid_trips. split.
  - intros (Hr & t & Hid & Ht). split; [exact Hr|]. exists t.
    apply filter_In in Ht. destruct Ht as [Ht Hp].
    apply andb_true_iff in Hp. destruct Hp as [Hsvc Hsuf].
    apply isin_Z_In, in_map_iff in Hsvc. destruct Hsvc as (c & Hc & Hcin).
    apply filter_In in Hcin. destruct Hcin as [Hcin Hrange].
    apply andb_true_iff in Hrange. rewrite !Z.leb_le in Hrange.
    apply endswith_iff in Hsuf.
    repeat split; try assumption; try lia. exists c. split; assumption.
  - intros (Hr & t & Ht & Hid & Hrange & (c & Hc & Hceq) & Hsuf). split; [exact Hr|].
    exists t. split; [exact Hid|]. apply filter_In. split; [exact Ht|].
    apply andb_true_iff. split; [|apply endswith_iff; exact Hsuf].
    apply isin_Z_In, in_map_iff. exists c. split; [exact Hceq|].
    apply filter_In. split; [exact Hc|].
    apply andb_true_iff. rewrite !Z.leb_le. lia.
Qed.

Lemma init_stop_time_clean_witness :
  gtfs_dir Fixture.env "Data/gtfs-2018" = Fixture.gtfs_files /\
  delay_dir Fixture.env "Data/L101 and L102 - 2018" = Fixture.delay_files /\
  exists sim,
    __init__ Fixture.env "Data/gtfs-2018" 20180301 20180308 "LW" = Return sim /\
    stops sim = Fixture.stop_table.
Proof.
  split; [reflexivity|]. split; [reflexivity|].
  destruct (init_stop_time_clean Fixture.env "Data/gtfs-2018" 20180301 20180308 "LW"
              [CalendarDate.mk 20180301] [Trip.mk "20180301-LW-100" 20180301 "01180-LW"]
              [StopTime.mk "20180301-LW-100" "UN" 1 (Some "06:00:00") (Some "06:00:00")
                 (Some "Kitchener GO")]
              Fixture.stop_table
              [L101.mk "907" (mkts (mkdate 2018 3 5) 27720) "LE"]
              [L102.mk "907" (Some "MECH")]
              [DelayCodeInfo.mk (Some "MECH") (Some "Mechanical failure")]
              eq_refl eq_refl) as (sim & Hret & Hstops & _).
  exists sim. split; [exact Hret | exact Hstops].
Defined.

(** ** The delay-log join *)

Lemma merge_left_In {A B K : Type} (eqb : K -> K -> bool) (kl : A -> K) (kr : B -> K)
    (left : list A) (right : list B) (l : A) (o : option B) :
  In (l, o) (Pandas.merge_left eqb kl kr left right) ->
  In l left /\
  match o with
  | Some r => In r right /\ eqb (kl l) (kr r) = true
  | None => forall r, In r right -> eqb (kl l) (kr r) = false
  end.
Proof.
  unfold Pandas.merge_left. rewrite in_flat_map. intros (l' & Hl' & Hin).
  destruct (filter (fun r => eqb (kl l') (kr r)) right) as [|m ms] eqn:Hf.
  - destruct Hin as [Heq|[]]. injection Heq as Hl Ho. subst l' o. split; [exact Hl'|].
    intros r Hr. destruct (eqb (kl l) (kr r)) eqn:He; [|reflexivity].
    assert (Hin : In r (filter (fun r => eqb (kl l) (kr r)) right))
      by (apply filter_In; split; assumption).
    rewrite Hf in Hin. destruct Hin.
  - apply in_map_iff in Hin. destruct Hin as (r & Heq & Hr).
    injection Heq as Hl Ho. subst l' o.
    split; [exact Hl'|]. rewrite <- Hf in Hr. apply filter_In in Hr. exact Hr.
Qed.

Lemma merge_left_keeps {A B K : Type} (eqb : K -> K -> bool) (kl : A -> K) (kr : B -> K)
    (left : list A) (right : list B) (l : A) :
  In l left -> exists o, In (l, o) (Pandas.merge_left eqb kl kr left right).
Proof.
  intros Hl. unfold Pandas.merge_left.
  destruct (filter (fun r => eqb (kl l) (kr r)) right) as [|m ms] eqn:Hf.
  - exists None. apply in_flat_map. exists l. split; [exact Hl|]. rewrite Hf. left. reflexivity.
  - exists (Some m). apply in_flat_map. exists l. split; [exact Hl|]. rewrite Hf.
    left. reflexivity.
Qed.

Lemma merge_left_length {A B K : Type} (eqb : K -> K -> bool) (kl : A -> K) (kr : B -> K)
    (left : list A) (right : list B) :
  (List.length left <= List.length (Pandas.merge_left eqb kl kr left right))%nat.
Proof.
  unfold Pandas.merge_left. induction left as [|l t IH]; [simpl; lia|].
  cbn [flat_map]. rewrite length_app.
  set (tail := flat_map _ t) in *.
  destruct (filter (fun r => eqb (kl l) (kr r)) right) as [|m ms]; simpl; lia.
Qed.

(** X19. The join of the delay tables is a left join on the L101 records:
    every L101 record is represented in the merged frame with its trip id
    and its operation timestamp, every merged row stems from an L101 record,
    and the merged frame has at least as many rows as L101. *)
Theorem merge_data_keeps_l101 (l101_df : list L101.t) (l102_df : list L102.t)
    (delay_code_info_df : list DelayCodeInfo.t) :
  (forall r, In r l101_df ->
     exists m, In m (merge_data l101_df l102_df delay_code_info_df) /\
               DelayLog.TripId m = L101.TripId r /\
               DelayLog.OperationDateTime m = L101.OperationDateTime r) /\
  (forall m, In m (merge_data l101_df l102_df delay_code_info_df) ->
     exists r, In r l101_df /\
               DelayLog.TripId m = L101.TripId r /\
               DelayLog.OperationDateTime m = L101.OperationDateTime r) /\
  (List.length l101_df <= List.length (merge_data l101_df l102_df delay_code_info_df))%nat.
Proof.
  unfold merge_data. cbv zeta. split; [|split].
  - intros r Hr.
    destruct (merge_left_keeps String.eqb L101.TripId L102.TripId l101_df l102_df r Hr)
      as [o Ho].
    destruct (merge_left_keeps (option_eqb String.eqb) l102_DelayCode
                DelayCodeInfo.DelayCode _ delay_code_info_df (r, o) Ho) as [o' Ho'].
    eexists. split; [apply in_map_iff; eexists; split; [reflexivity | exact Ho']|].
    split; reflexivity.
  - intros m Hm. apply in_map_iff in Hm. destruct Hm as ([[r o] o'] & <- & Hin).
    apply merge_left_In in Hin. destruct Hin as [Hin _].
    apply merge_left_In in Hin. destruct Hin as [Hr _].
    exists r. split; [exact Hr|]. split; reflexivity.
  - rewrite length_map.
    eapply Nat.le_trans; [|apply merge_left_length]. apply merge_left_length.
Qed.

(** ** The control log *)

Lemma control_log_drawn (self : GoAPISimulator) (draw : nat) :
  match delay_logs_clean_df self with
  | [] => exists msg, get_control_log self draw = Raise (ValueError msg)
  | _ :: _ => exists r, get_control_log self draw = Return r /\
                        In r (delay_logs_clean_df self)
  end.
Proof.
  unfold get_control_log.
  destruct (delay_logs_clean_df self) as [|r0 rest] eqn:Hdf; [eexists; reflexivity|].
  unfold Pandas.iloc.
  destruct (nth_error (r0 :: rest) (draw mod List.length (r0 :: rest))) as [r|] eqn:Hn.
  - exists r. split; [reflexivity|]. eapply nth_error_In. exact Hn.
  - apply nth_error_None in Hn.
    pose proof (Nat.mod_upper_bound draw (List.length (r0 :: rest))) as Hlt.
    simpl in Hlt, Hn. lia.
Qed.

(** X20. Whatever the random draw, the control log of a store with a
    non-empty snapshot is a row of that snapshot, and on a store with an
    empty snapshot the sampling raises a [ValueError]. *)
Theorem get_control_log_from_snapshot (self : GoAPISimulator) (draw : nat) :
  (delay_logs_clean_df self <> [] ->
   exists r, get_control_log self draw = Return r /\ In r (delay_logs_clean_df self)) /\
  (delay_logs_clean_df self = [] ->
   exists msg, get_control_log self draw = Raise (ValueError msg)).
Proof.
  pose proof (control_log_drawn self draw) as H.
  destruct (delay_logs_clean_df self) as [|r0 rest].
  - split; [congruence | intros _; exact H].
  - split; [intros _; exact H | discriminate].
Qed.

Lemma get_control_log_from_snapshot_witness :
  delay_logs_clean_df
    (mksim [] Fixture.constant_model []
       [DelayLog.mk "907" (mkts (mkdate 2018 3 5) 27720) "LE" (Some "MECH") None]) <> [] /\
  exists r,
    get_control_log
      (mksim [] Fixture.constant_model []
         [DelayLog.mk "907" (mkts (mkdate 2018 3 5) 27720) "LE" (Some "MECH") None])
      5 = Return r /\
    In r [DelayLog.mk "907" (mkts (mkdate 2018 3 5) 27720) "LE" (Some "MECH") None].
Proof.
  assert (Hne : delay_logs_clean_df
    (mksim [] Fixture.constant_model []
       [DelayLog.mk "907" (mkts (mkdate 2018 3 5) 27720) "LE" (Some "MECH") None]) <> [])
    by discriminate.
  split; [exact Hne|].
  exact (proj1 (get_control_log_from_snapshot
                  (mksim [] Fixture.constant_model []
                     [DelayLog.mk "907" (mkts (mkdate 2018 3 5) 27720) "LE" (Some "MECH")
                        None]) 5%nat) Hne).
Defined.

(** X21. Every control log drawn from a store that an initialization
    produced is a joined delay record dated from 1 to 8 March 2018 on the
    configured corridor with a delay code, whatever the random draw and the
    start and end dates of the initialization. *)
Theorem get_control_log_after_init (env : Env) (data_dir : string)
    (start_date end_date : Z) (corridor : string) (sim : GoAPISimulator)
    (draw : nat) (r : DelayLog.t) :
  __init__ env data_dir start_date end_date corridor = Return sim ->
  get_control_log sim draw = Return r ->
  date_leb (mkdate 2018 3 1) (dt_date (DelayLog.OperationDateTime r)) = true /\
  date_leb (dt_date (DelayLog.OperationDateTime r)) (mkdate 2018 3 8) = true /\
  DelayLog.CorridorId r = corridor /\
  DelayLog.DelayCode r <> None.
Proof.
  intros Hinit Hlog.
  assert (Hin : In r (delay_logs_clean_df sim)).
  { pose proof (control_log_drawn sim draw) as H.
    destruct (delay_logs_clean_df sim) as [|r0 rest].
    - destruct H as [msg H]. congruence.
    - destruct H as (r' & H & Hin). congruence. }
  revert Hinit. unfold __init__, read_from_file.
  destruct (gtfs_dir env data_dir) as [[c|] [t|] [st|] [s|]]; simpl; try discriminate.
  destruct (delay_dir env "Data/L101 and L102 - 2018") as [[l1|] [l2|] [dc|]]; simpl;
    try discriminate.
  intros H. injection H as <-. cbn [delay_logs_clean_df] in Hin.
  apply (Permutation_in _ (sort_values_perm _ _)) in Hin.
  apply filter_In in Hin. destruct Hin as [_ Hf].
  apply delay_log_filter_iff. exact Hf.
Qed.

Lemma get_control_log_after_init_witness :
  exists sim r,
    __init__ Fixture.env "Data/gtfs-2018" 20180401 20180408 "LE" = Return sim /\
    get_control_log sim 7 = Return r /\
    date_leb (mkdate 2018 3 1) (dt_date (DelayLog.OperationDateTime r)) = true /\
    date_leb (dt_date (DelayLog.OperationDateTime r)) (mkdate 2018 3 8) = true /\
    DelayLog.CorridorId r = "LE" /\
    DelayLog.DelayCode r <> None.
Proof.
  assert (Hex : exists sim r,
            __init__ Fixture.env "Data/gtfs-2018" 20180401 20180408 "LE" = Return sim /\
            get_control_log sim 7 = Return r).
  { do 2 eexists. split; reflexivity. }
  destruct Hex as (sim & r & Hinit & Hlog).
  exists sim, r. split; [exact Hinit|]. split; [exact Hlog|].
  exact (get_control_log_after_init Fixture.env "Data/gtfs-2018" 20180401 20180408 "LE"
           sim 7%nat r Hinit Hlog).
Defined.

(** ** Removing HTML tags *)

Lemma clean_html_skip_length (s : string) :
  (String.length (clean_html s) <= String.length s)%nat /\
  (String.length (skip_tag s) <= String.length s)%nat.
Proof.
  induction s as [|c t [IHc IHs]]; simpl; [lia|]. split.
  - destruct (Ascii.eqb c "<"); [|simpl; lia].
    destruct (after_close t); simpl; lia.
  - destruct (Ascii.eqb c ">"); lia.
Qed.

Lemma after_close_clean (s : string) :
  after_close s = None -> after_close (clean_html s) = None.
Proof.
  induction s as [|c t IH]; simpl; [reflexivity|].
  destruct (Ascii.eqb c ">") eqn:Egt; [discriminate|].
  destruct (Ascii.eqb c (ascii_of_nat 10)) eqn:Enl.
  - intros _. destruct (Ascii.eqb c "<") eqn:Elt.
    + apply Ascii.eqb_eq in Elt. subst c. discriminate.
    + simpl. rewrite Egt, Enl. reflexivity.
  - intros Hnone. rewrite Hnone.
    destruct (Ascii.eqb c "<"); simpl; rewrite Egt, Enl; exact (IH Hnone).
Qed.

Lemma clean_html_skip_tag_free (s : string) :
  tag_free (clean_html s) /\ tag_free (skip_tag s).
Proof.
  induction s as [|c t [IHc IHs]]; simpl; [tauto|]. split.
  - destruct (Ascii.eqb c "<") eqn:Elt.
    + destruct (after_close t) eqn:Hac; [exact IHs|].
      simpl. split; [intros _; apply after_close_clean; exact Hac | exact IHc].
    + simpl. split; [|exact IHc].
      intros ->. discriminate.
  - destruct (Ascii.eqb c ">"); assumption.
Qed.

Lemma clean_html_tag_free_id (s : string) : tag_free s -> clean_html s = s.
Proof.
  induction s as [|c t IH]; simpl; [reflexivity|]. intros [Hc Ht].
  destruct (Ascii.eqb c "<") eqn:Elt.
  - apply Ascii.eqb_eq in Elt. rewrite (Hc Elt). f_equal. exact (IH Ht).
  - f_equal. exact (IH Ht).
Qed.

(** One step instruction of a route, as the directions service writes it. *)
Example clean_html_instruction :
  clean_html "Head <b>north</b> on <div style=x>Bay St</div>" = "Head north on Bay St".
Proof. reflexivity. Qed.

(** X22. Removing the tags never lengthens a text. *)
Theorem clean_html_length (raw_html : string) :
  (String.length (clean_html raw_html) <= String.length raw_html)%nat.
Proof. apply clean_html_skip_length. Qed.

(** X23. The cleaned text contains no tag any more, so cleaning it again
    changes nothing. *)
Theorem clean_html_idempotent (raw_html : string) :
  tag_free (clean_html raw_html) /\
  clean_html (clean_html raw_html) = clean_html raw_html.
Proof.
  pose proof (clean_html_skip_tag_free raw_html) as [H _].
  split; [exact H | apply clean_html_tag_free_id; exact H].
Qed.

Lemma no_close_after (s : string) : ~ contains ">"%char s -> after_close s = None.
Proof.
  induction s as [|c t IH]; simpl; [reflexivity|]. intros Hno.
  destruct (Ascii.eqb c ">") eqn:Egt; [apply Ascii.eqb_eq in Egt; tauto|].
  destruct (Ascii.eqb c (ascii_of_nat 10)); [reflexivity | apply IH; tauto].
Qed.

(** X24. A text without the character '<', or without the character '>',
    is returned unchanged. *)
Theorem clean_html_plain_text (raw_html : string) :
  ~ contains "<"%char raw_html \/ ~ contains ">"%char raw_html ->
  clean_html raw_html = raw_html.
Proof.
  intros H. apply clean_html_tag_free_id.
  induction raw_html as [|c t IH]; simpl; [exact I|]. split.
  - intros ->. destruct H as [H|H]; [exfalso; apply H; left; reflexivity|].
    apply no_close_after. intros Hc. apply H. right. exact Hc.
  - apply IH. destruct H as [H|H]; [left | right]; intros Hc; apply H; right; exact Hc.
Qed.

Lemma clean_html_plain_text_witness :
  (~ contains "<"%char "Walk to Union Station" \/
   ~ contains ">"%char "Walk to Union Station") /\
  clean_html "Walk to Union Station" = "Walk to Union Station".
Proof.
  assert (H : ~ contains "<"%char "Walk to Union Station" \/
              ~ contains ">"%char "Walk to Union Station").
  { left. simpl. intros Hc.
    repeat (destruct Hc as [Hc|Hc]; [discriminate|]). exact Hc. }
  split; [exact H | exact (clean_html_plain_text "Walk to Union Station" H)].
Defined.
